(** * Interior Design Studio API: request handlers and schemas

    A shallow embedding of [main.py] and [schemas.py].  Python dictionaries
    are finite maps from strings to values, handlers are functions in a small
    state-and-exception monad over a [World] that holds the process
    environment, the document store, the external CRM service and a record
    of the calls that leave the process. *)

From Stdlib Require Import ZArith QArith.
From stdpp Require Import gmap strings list fin_maps pretty.

Local Set Warnings "-register-all".
Local Open Scope Z_scope.
Local Open Scope string_scope.

(** ** Python values *)

(** The values that occur in documents, filters and JSON bodies.  An
    [ObjectId] is the storage-native identifier; the store numbers them. *)
Inductive value :=
| VNone
| VBool (b : bool)
| VInt (n : Z)
| VFloat (q : Q)
| VStr (s : string)
| VDatetime (t : Z)
| VObjectId (oid : N)
| VList (l : list value)
| VDict (m : gmap string value).

(** A Python [dict] with string keys: a stored document, a storage filter or
    a response body. *)
Abbreviation dict := (gmap string value).

(** Truthiness of a string: only the empty string is falsy.  For an
    [Optional[str]] the handlers below match on [None] (falsy) first. *)
Definition truthy (s : string) : bool := negb (String.eqb s "").

(** [x or ""] on an [Optional[str]]. *)
Definition or_empty (o : option string) : string :=
  match o with
  | Some s => if truthy s then s else ""
  | None => ""
  end.

(** [s[:n]] on a string (strings are byte strings here, which agrees with
    Python's slicing on ASCII text). *)
Definition str_slice (n : nat) (s : string) : string := String.substring 0 n s.

(** ** Exceptions and the handler monad *)

(** A raised [Exception]; [str(e)] is its message. *)
Inductive exn := Exception (msg : string).

Definition str_exn (e : exn) : string := let 'Exception msg := e in msg.

Inductive result (A : Type) :=
| Return (a : A)
| Raise (e : exn).
Arguments Return {A} a.
Arguments Raise {A} e.

(** What a route answers: a JSON body with status 200, or an
    [HTTPException] with its status code and detail. *)
Inductive http_result :=
| Ok (body : value)
| HTTPException (status_code : Z) (detail : string).

(** ** The world outside the handlers *)

(** What [getattr(db, 'name')] does. *)
Inductive attr :=
| AttrMissing
| AttrValue (v : value)
| AttrRaises (e : exn).

(** The module-level storage handle [db] of the database module, as far as
    the diagnostics endpoint looks at it. *)
Record DbHandle := {
  db_name : attr;
  db_list_collection_names : result (list value)
}.

(** What [requests.post] does: it raises (connection error, timeout, missing
    module) or returns a response with a status code. *)
Inductive crm_outcome :=
| CrmRaises (e : exn)
| CrmStatus (code : Z).

(** An outbound [requests.post(url, json=..., headers=..., timeout=...)]. *)
Record http_post := {
  post_url : string;
  post_json : dict;
  post_headers : dict;
  post_timeout : Z
}.

(** The world a handler runs in.  [store] holds the documents with their
    collection names in insertion order; [faults] scripts the storage
    collaborator (each storage call takes the head: [Some msg] makes the call
    raise [Exception(msg)], [None] or an exhausted script lets it succeed);
    [finds] records the filters handed to the storage collaborator and
    [posts] the outbound HTTP calls. *)
Record World := {
  environ : gmap string string;
  db : option DbHandle;
  store : list (string * dict);
  next_oid : N;
  faults : list (option string);
  crm : crm_outcome;
  finds : list (string * dict);
  posts : list http_post
}.

Definition with_faults (fs : list (option string)) (w : World) : World :=
  {| environ := environ w; db := db w; store := store w;
     next_oid := next_oid w; faults := fs; crm := crm w;
     finds := finds w; posts := posts w |}.
Definition with_store (st : list (string * dict)) (n : N) (w : World) : World :=
  {| environ := environ w; db := db w; store := st;
     next_oid := n; faults := faults w; crm := crm w;
     finds := finds w; posts := posts w |}.
Definition with_crm (c : crm_outcome) (w : World) : World :=
  {| environ := environ w; db := db w; store := store w;
     next_oid := next_oid w; faults := faults w; crm := c;
     finds := finds w; posts := posts w |}.
Definition with_finds (fs : list (string * dict)) (w : World) : World :=
  {| environ := environ w; db := db w; store := store w;
     next_oid := next_oid w; faults := faults w; crm := crm w;
     finds := fs; posts := posts w |}.
Definition with_posts (ps : list http_post) (w : World) : World :=
  {| environ := environ w; db := db w; store := store w;
     next_oid := next_oid w; faults := faults w; crm := crm w;
     finds := finds w; posts := ps |}.

(** Computations over a state [S] that may raise. *)
Definition ST (S A : Type) : Type := S -> result A * S.
Abbreviation M := (ST World).

Definition ret {S A} (a : A) : ST S A := fun s => (Return a, s).
Definition raise {S A} (e : exn) : ST S A := fun s => (Raise e, s).
Definition bind {S A B} (m : ST S A) (k : A -> ST S B) : ST S B :=
  fun s => match m s with
           | (Return a, s') => k a s'
           | (Raise e, s') => (Raise e, s')
           end.
(** [try: m  except Exception as e: h e]: what [m] did to the state before
    it raised stays done. *)
Definition try_except {S A} (m : ST S A) (h : exn -> ST S A) : ST S A :=
  fun s => match m s with
           | (Return a, s') => (Return a, s')
           | (Raise e, s') => h e s'
           end.
Definition lift {S A} (r : result A) : ST S A := fun s => (r, s).
Definition gets {S A} (f : S -> A) : ST S A := fun s => (Return (f s), s).
Definition modify {S} (f : S -> S) : ST S unit := fun s => (Return tt, f s).

(** The monad operations under stdpp's notations [x ← m; k] and [m;; k]. *)
#[global] Instance ST_ret {S} : MRet (ST S) := @ret S.
#[global] Instance ST_bind {S} : MBind (ST S) := fun A B k m => bind m k.

(** [for x in xs: body x] *)
Fixpoint for_each {S A} (xs : list A) (body : A -> ST S unit) : ST S unit :=
  match xs with
  | [] => ret tt
  | x :: xs' => body x;; for_each xs' body
  end.

(** [os.getenv(name)] and [os.getenv(name, dflt)]. *)
Definition getenv (name : string) (w : World) : option string :=
  environ w !! name.
Definition getenv_default (name dflt : string) (w : World) : string :=
  default dflt (environ w !! name).

(** A route body wrapped in
    [try: ... except Exception as e: raise HTTPException(500, str(e))]. *)
Definition or_500 (m : M value) : World -> http_result * World :=
  fun w => match m w with
           | (Return body, w') => (Ok body, w')
           | (Raise e, w') => (HTTPException 500 (str_exn e), w')
           end.

(** ** The storage collaborator *)

(** The documents of one collection, in insertion order. *)
Definition collection (name : string) (st : list (string * dict)) : list dict :=
  snd <$> filter (fun cd => bool_decide (cd.1 = name)) st.

(** Modelled from the spec: "exact match" of a filter value against a
    field, on scalar values. *)
Definition scalar_eqb (a b : value) : bool :=
  match a, b with
  | VNone, VNone => true
  | VBool x, VBool y => Bool.eqb x y
  | VInt x, VInt y => Z.eqb x y
  | VStr x, VStr y => String.eqb x y
  | VDatetime x, VDatetime y => Z.eqb x y
  | VObjectId x, VObjectId y => N.eqb x y
  | _, _ => false
  end.

(** Modelled from the spec: one operator of a filter condition against a
    field ([None] when the document lacks the field): [$gte] is "rating >=
    min_rating" on integers, [$in] is "the array field contains one of the
    candidates". *)
Definition op_holds (op : string) (arg : value) (field : option value) : bool :=
  if String.eqb op "$gte" then
    match arg, field with
    | VInt r, Some (VInt n) => Z.leb r n
    | _, _ => false
    end
  else if String.eqb op "$in" then
    match arg, field with
    | VList cands, Some (VList elems) =>
        existsb (fun c => existsb (scalar_eqb c) elems) cands
    | _, _ => false
    end
  else false.

(** Modelled from the spec: a filter condition is an operator document, or
    a value to match exactly. *)
Definition cond_holds (c : value) (field : option value) : bool :=
  match c with
  | VDict ops =>
      forallb (fun oa => op_holds oa.1 oa.2 field) (map_to_list ops)
  | v => from_option (scalar_eqb v) false field
  end.

(** Modelled from the spec: the filter semantics of the storage
    collaborator's "find matching documents in collection C" (the database
    module is not part of the sources): a document matches when every
    condition of the filter holds, so the empty filter matches every
    document. *)
Definition matches (filt d : dict) : bool :=
  forallb (fun kc => cond_holds kc.2 (d !! kc.1)) (map_to_list filt).

(** Modelled from the spec: any call of the storage collaborator may fail
    with a storage error; a call takes the head of the fault script. *)
Definition storage_call : M unit :=
  fun w =>
    let w' := with_faults (tail (faults w)) w in
    match head (faults w) with
    | Some (Some msg) => (Raise (Exception msg), w')
    | _ => (Return tt, w')
    end.

(** Modelled from the spec: [database.get_documents(collection, filter)],
    which is not part of the sources: the documents of the collection that
    match the filter, in the order the storage holds them. *)
Definition get_documents (name : string) (filt : dict) : M (list dict) :=
  modify (fun w => with_finds (finds w ++ [(name, filt)]) w);;
  storage_call;;
  st ← gets store;
  mret (filter (fun d => matches filt d = true) (collection name st)).

(** The interface of a pydantic [BaseModel]: its fields as a dictionary. *)
Class BaseModel (A : Type) := model_dump : A -> dict.

Definition dump_opt {A} (f : A -> value) (o : option A) : value :=
  from_option f VNone o.

#[global] Instance result_ret : MRet result := @Return.
#[global] Instance result_bind : MBind result :=
  fun A B k r => match r with Return a => k a | Raise e => Raise e end.

Section Service.

(** Two functions of the runtime are parameters of the development:
    Python's built-in [str] on values, and pydantic's check that a string is
    a well-formed [HttpUrl]. *)
Variable py_str : value -> string.
Variable is_http_url : string -> bool.

(** ** schemas.py *)

(** pydantic's [ValidationError], raised by a model's constructor. *)
Definition ValidationError (field : string) : exn :=
  Exception ("validation error for field " ++ field).

(** Readers of one keyword argument of a model's constructor, one per field
    declaration.  A missing key takes the declared default; a value of
    another type than the declared one is a validation error (pydantic's
    coercions between types are not modelled). *)

(** [str = Field(...)] *)
Definition field_str (kw : dict) (k : string) : result string :=
  match kw !! k with
  | Some (VStr s) => Return s
  | _ => Raise (ValidationError k)
  end.

(** [Optional[str] = Field(None)] *)
Definition field_optional_str (kw : dict) (k : string) : result (option string) :=
  match kw !! k with
  | None | Some VNone => Return None
  | Some (VStr s) => Return (Some s)
  | Some _ => Raise (ValidationError k)
  end.

(** [bool = Field(dflt)] *)
Definition field_bool (kw : dict) (k : string) (dflt : bool) : result bool :=
  match kw !! k with
  | None => Return dflt
  | Some (VBool b) => Return b
  | Some _ => Raise (ValidationError k)
  end.

(** [float = Field(..., ge=lo)] *)
Definition field_float_ge (kw : dict) (k : string) (lo : Q) : result Q :=
  match kw !! k with
  | Some (VFloat q) =>
      if Qle_bool lo q then Return q else Raise (ValidationError k)
  | Some (VInt n) =>
      if Qle_bool lo (inject_Z n) then Return (inject_Z n)
      else Raise (ValidationError k)
  | _ => Raise (ValidationError k)
  end.

(** [int = Field(dflt, ge=lo, le=hi)] *)
Definition field_int_range (kw : dict) (k : string) (dflt lo hi : Z) : result Z :=
  match kw !! k with
  | None => Return dflt
  | Some (VInt n) =>
      if Z.leb lo n && Z.leb n hi then Return n else Raise (ValidationError k)
  | Some _ => Raise (ValidationError k)
  end.

(** [Optional[int] = Field(None, ge=lo)] *)
Definition field_optional_int_ge (kw : dict) (k : string) (lo : Z)
  : result (option Z) :=
  match kw !! k with
  | None | Some VNone => Return None
  | Some (VInt n) =>
      if Z.leb lo n then Return (Some n) else Raise (ValidationError k)
  | Some _ => Raise (ValidationError k)
  end.

(** [Optional[HttpUrl] = Field(None)] *)
Definition field_optional_url (kw : dict) (k : string) : result (option string) :=
  match kw !! k with
  | None | Some VNone => Return None
  | Some (VStr s) =>
      if is_http_url s then Return (Some s) else Raise (ValidationError k)
  | Some _ => Raise (ValidationError k)
  end.

(** The items of a list field: each one a string accepted by [ok]. *)
Fixpoint list_items (ok : string -> bool) (k : string) (l : list value)
  : result (list string) :=
  match l with
  | [] => Return []
  | VStr s :: l' =>
      if ok s then ss ← list_items ok k l'; Return (s :: ss)
      else Raise (ValidationError k)
  | _ :: _ => Raise (ValidationError k)
  end.

(** [Optional[List[T]] = Field(default_factory=list)]: a missing key takes a
    fresh empty list; the type is [Optional], so an explicit [None] is a
    valid value and is kept. *)
Definition field_optional_list (ok : string -> bool) (kw : dict) (k : string)
  : result (option (list string)) :=
  match kw !! k with
  | None => Return (Some [])
  | Some VNone => Return None
  | Some (VList l) => ss ← list_items ok k l; Return (Some ss)
  | Some _ => Raise (ValidationError k)
  end.

Definition any_str (s : string) : bool := true.

Record Product := {
  Product_title : string;
  Product_description : option string;
  Product_price : Q;
  Product_category : string;
  Product_room_type : option string;
  Product_image_url : option string;
  Product_in_stock : bool;
  Product_tags : option (list string)
}.

(** [Product(kwargs)] *)
Definition Product_new (kw : dict) : result Product :=
  title ← field_str kw "title";
  description ← field_optional_str kw "description";
  price ← field_float_ge kw "price" 0;
  category ← field_str kw "category";
  room_type ← field_optional_str kw "room_type";
  image_url ← field_optional_url kw "image_url";
  in_stock ← field_bool kw "in_stock" true;
  tags ← field_optional_list any_str kw "tags";
  Return {| Product_title := title; Product_description := description;
            Product_price := price; Product_category := category;
            Product_room_type := room_type; Product_image_url := image_url;
            Product_in_stock := in_stock; Product_tags := tags |}.

Record Testimonial := {
  Testimonial_client_name : string;
  Testimonial_project_type : option string;
  Testimonial_rating : Z;
  Testimonial_quote : string;
  Testimonial_photo_url : option string;
  Testimonial_case_study_url : option string
}.

(** [Testimonial(kwargs)] *)
Definition Testimonial_new (kw : dict) : result Testimonial :=
  client_name ← field_str kw "client_name";
  project_type ← field_optional_str kw "project_type";
  rating ← field_int_range kw "rating" 5 1 5;
  quote ← field_str kw "quote";
  photo_url ← field_optional_url kw "photo_url";
  case_study_url ← field_optional_url kw "case_study_url";
  Return {| Testimonial_client_name := client_name;
            Testimonial_project_type := project_type;
            Testimonial_rating := rating; Testimonial_quote := quote;
            Testimonial_photo_url := photo_url;
            Testimonial_case_study_url := case_study_url |}.

Record Project := {
  Project_title : string;
  Project_style : option string;
  Project_room : option string;
  Project_budget_range : option string;
  Project_duration_weeks : option Z;
  Project_description : option string;
  Project_before_image_url : option string;
  Project_after_image_url : option string;
  Project_gallery : option (list string)
}.

(** [Project(kwargs)] *)
Definition Project_new (kw : dict) : result Project :=
  title ← field_str kw "title";
  style ← field_optional_str kw "style";
  room ← field_optional_str kw "room";
  budget_range ← field_optional_str kw "budget_range";
  duration_weeks ← field_optional_int_ge kw "duration_weeks" 0;
  description ← field_optional_str kw "description";
  before_image_url ← field_optional_url kw "before_image_url";
  after_image_url ← field_optional_url kw "after_image_url";
  gallery ← field_optional_list is_http_url kw "gallery";
  Return {| Project_title := title; Project_style := style;
            Project_room := room; Project_budget_range := budget_range;
            Project_duration_weeks := duration_weeks;
            Project_description := description;
            Project_before_image_url := before_image_url;
            Project_after_image_url := after_image_url;
            Project_gallery := gallery |}.

(** A validated [Lead], as FastAPI hands it to the route ([email] has passed
    the [EmailStr] check). *)
Record Lead := {
  Lead_name : string;
  Lead_email : string;
  Lead_phone : option string;
  Lead_project_details : option string;
  Lead_preferred_date : option Z;
  Lead_source : option string;
  Lead_consent : bool
}.

Record BlogPost := {
  BlogPost_title : string;
  BlogPost_slug : string;
  BlogPost_excerpt : option string;
  BlogPost_content : string;
  BlogPost_cover_image_url : option string;
  BlogPost_keywords : option (list string);
  BlogPost_published : bool
}.

(** [BlogPost(kwargs)] *)
Definition BlogPost_new (kw : dict) : result BlogPost :=
  title ← field_str kw "title";
  slug ← field_str kw "slug";
  excerpt ← field_optional_str kw "excerpt";
  content ← field_str kw "content";
  cover_image_url ← field_optional_url kw "cover_image_url";
  keywords ← field_optional_list any_str kw "keywords";
  published ← field_bool kw "published" true;
  Return {| BlogPost_title := title; BlogPost_slug := slug;
            BlogPost_excerpt := excerpt; BlogPost_content := content;
            BlogPost_cover_image_url := cover_image_url;
            BlogPost_keywords := keywords; BlogPost_published := published |}.

Definition dump_list (o : option (list string)) : value :=
  dump_opt (fun l => VList (VStr <$> l)) o.

#[global] Instance Product_model : BaseModel Product := fun p =>
  {[ "title" := VStr (Product_title p);
     "description" := dump_opt VStr (Product_description p);
     "price" := VFloat (Product_price p);
     "category" := VStr (Product_category p);
     "room_type" := dump_opt VStr (Product_room_type p);
     "image_url" := dump_opt VStr (Product_image_url p);
     "in_stock" := VBool (Product_in_stock p);
     "tags" := dump_list (Product_tags p) ]}.

#[global] Instance Testimonial_model : BaseModel Testimonial := fun t =>
  {[ "client_name" := VStr (Testimonial_client_name t);
     "project_type" := dump_opt VStr (Testimonial_project_type t);
     "rating" := VInt (Testimonial_rating t);
     "quote" := VStr (Testimonial_quote t);
     "photo_url" := dump_opt VStr (Testimonial_photo_url t);
     "case_study_url" := dump_opt VStr (Testimonial_case_study_url t) ]}.

#[global] Instance Project_model : BaseModel Project := fun p =>
  {[ "title" := VStr (Project_title p);
     "style" := dump_opt VStr (Project_style p);
     "room" := dump_opt VStr (Project_room p);
     "budget_range" := dump_opt VStr (Project_budget_range p);
     "duration_weeks" := dump_opt VInt (Project_duration_weeks p);
     "description" := dump_opt VStr (Project_description p);
     "before_image_url" := dump_opt VStr (Project_before_image_url p);
     "after_image_url" := dump_opt VStr (Project_after_image_url p);
     "gallery" := dump_list (Project_gallery p) ]}.

#[global] Instance Lead_model : BaseModel Lead := fun l =>
  {[ "name" := VStr (Lead_name l);
     "email" := VStr (Lead_email l);
     "phone" := dump_opt VStr (Lead_phone l);
     "project_details" := dump_opt VStr (Lead_project_details l);
     "preferred_date" := dump_opt VDatetime (Lead_preferred_date l);
     "source" := dump_opt VStr (Lead_source l);
     "consent" := VBool (Lead_consent l) ]}.

#[global] Instance BlogPost_model : BaseModel BlogPost := fun b =>
  {[ "title" := VStr (BlogPost_title b);
     "slug" := VStr (BlogPost_slug b);
     "excerpt" := dump_opt VStr (BlogPost_excerpt b);
     "content" := VStr (BlogPost_content b);
     "cover_image_url" := dump_opt VStr (BlogPost_cover_image_url b);
     "keywords" := dump_list (BlogPost_keywords b);
     "published" := VBool (BlogPost_published b) ]}.

(** Modelled from the spec: [database.create_document(collection, data)],
    which is not part of the sources: the entity's fields are stored as one
    new document of the collection under a server-generated identifier, and
    the identifier is returned as a string.  When the storage raises,
    nothing is stored. *)
Definition create_document {A} `{BaseModel A} (name : string) (data : A)
  : M string :=
  storage_call;;
  oid ← gets next_oid;
  modify (fun w =>
    with_store (store w ++ [(name, <["_id" := VObjectId oid]> (model_dump data))])
               (N.succ oid) w);;
  mret (py_str (VObjectId oid)).

(** [requests.post(url, json=payload, headers=headers, timeout=t)] *)
Definition requests_post (url : string) (payload headers : dict) (t : Z) : M Z :=
  modify (fun w =>
    with_posts (posts w ++ [{| post_url := url; post_json := payload;
                              post_headers := headers; post_timeout := t |}]) w);;
  c ← gets crm;
  match c with
  | CrmRaises e => raise e
  | CrmStatus code => mret code
  end.

(** ** main.py *)

(** The body of the loop of [_serialize_docs]: copy the document, and when
    it has an ["_id"], pop it and store its [str] under ["id"]. *)
Definition serialize_doc (d : dict) : dict :=
  match d !! "_id" with
  | Some oid => <["id" := VStr (py_str oid)]> (delete "_id" d)
  | None => d
  end.

Definition _serialize_docs (docs : list dict) : list dict :=
  fold_left (fun serialized d => (serialized ++ [serialize_doc d])%list)
            docs [].

(** The JSON body of a list of documents. *)
Definition json_docs (docs : list dict) : value := VList (VDict <$> docs).

(** The filters the read routes build from their query parameters. *)
Definition products_filt (category room_type : option string)
    (in_stock : option bool) : dict :=
  let filt : dict := ∅ in
  let filt := match category with
              | Some c => if truthy c then <["category" := VStr c]> filt else filt
              | None => filt
              end in
  let filt := match room_type with
              | Some r => if truthy r then <["room_type" := VStr r]> filt else filt
              | None => filt
              end in
  let filt := match in_stock with
              | Some b => <["in_stock" := VBool b]> filt
              | None => filt
              end in
  filt.

Definition list_products (category room_type : option string)
    (in_stock : option bool) : World -> http_result * World :=
  let filt := products_filt category room_type in_stock in
  or_500 (docs ← get_documents "product" filt;
          mret (json_docs (_serialize_docs docs))).

Definition projects_filt (style room : option string) : dict :=
  let filt : dict := ∅ in
  let filt := match style with
              | Some s => if truthy s then <["style" := VStr s]> filt else filt
              | None => filt
              end in
  let filt := match room with
              | Some r => if truthy r then <["room" := VStr r]> filt else filt
              | None => filt
              end in
  filt.

Definition list_projects (style room : option string)
  : World -> http_result * World :=
  let filt := projects_filt style room in
  or_500 (docs ← get_documents "project" filt;
          mret (json_docs (_serialize_docs docs))).

Definition testimonials_filt (min_rating : Z) : dict :=
  {[ "rating" := VDict {[ "$gte" := VInt min_rating ]} ]}.

Definition list_testimonials (min_rating : Z) : World -> http_result * World :=
  let filt := testimonials_filt min_rating in
  or_500 (docs ← get_documents "testimonial" filt;
          mret (json_docs (_serialize_docs docs))).

Definition blogposts_filt (published : bool) (keyword : option string) : dict :=
  let filt : dict := {[ "published" := VBool published ]} in
  let filt := match keyword with
              | Some k =>
                  if truthy k
                  then <["keywords" := VDict {[ "$in" := VList [VStr k] ]}]> filt
                  else filt
              | None => filt
              end in
  filt.

Definition list_blogposts (published : bool) (keyword : option string)
  : World -> http_result * World :=
  let filt := blogposts_filt published keyword in
  or_500 (docs ← get_documents "blogpost" filt;
          mret (json_docs (_serialize_docs docs))).

Definition create_lead (lead : Lead) : World -> http_result * World :=
  or_500 (
    lead_id ← create_document "lead" lead;
    hubspot_key ← gets (getenv "HUBSPOT_API_KEY");
    match hubspot_key with
    | Some key =>
        if truthy key then
          try_except
            (let headers : dict :=
               {[ "Authorization" := VStr ("Bearer " ++ key);
                  "Content-Type" := VStr "application/json" ]} in
             let payload : dict :=
               {[ "properties" := VDict
                    {[ "email" := VStr (Lead_email lead);
                       "firstname" := VStr (Lead_name lead);
                       "phone" := VStr (or_empty (Lead_phone lead));
                       "lifecyclestage" := VStr "lead";
                       "notes" := VStr (or_empty (Lead_project_details lead)) ]} ]} in
             requests_post "https://api.hubapi.com/crm/v3/objects/contacts"
                           payload headers 5;;
             mret tt)
            (fun _ => mret tt)
        else mret tt
    | None => mret tt
    end;;
    mret (VDict {[ "id" := VStr lead_id; "status" := VStr "received" ]})).

Definition demo_products : list dict :=
  [ {[ "title" := VStr "Modern Lounge Chair";
       "description" := VStr "Ergonomic lounge chair in walnut finish.";
       "price" := VFloat 799; "category" := VStr "furniture";
       "room_type" := VStr "living room"; "in_stock" := VBool true;
       "tags" := VList [VStr "modern"; VStr "wood"] ]};
    {[ "title" := VStr "Marble Pendant Light";
       "description" := VStr "Minimal pendant for kitchen islands.";
       "price" := VFloat 199; "category" := VStr "lighting";
       "room_type" := VStr "kitchen"; "in_stock" := VBool true;
       "tags" := VList [VStr "minimal"; VStr "lighting"] ]} ].

Definition demo_testimonials : list dict :=
  [ {[ "client_name" := VStr "Ava Patel"; "project_type" := VStr "Full Home";
       "rating" := VInt 5;
       "quote" := VStr "They transformed our space beyond expectations!" ]};
    {[ "client_name" := VStr "Liam Chen";
       "project_type" := VStr "Kitchen Remodel"; "rating" := VInt 5;
       "quote" := VStr "Professional, timely, and stunning results." ]} ].

Definition demo_projects : list dict :=
  [ {[ "title" := VStr "Skyline Penthouse"; "style" := VStr "Modern";
       "room" := VStr "Living Room"; "budget_range" := VStr "$$$";
       "duration_weeks" := VInt 12;
       "description" := VStr "A sleek urban living space with panoramic views." ]};
    {[ "title" := VStr "Cozy Minimal Bedroom"; "style" := VStr "Minimalist";
       "room" := VStr "Bedroom"; "budget_range" := VStr "$$";
       "duration_weeks" := VInt 6;
       "description" := VStr "Calming tones with functional storage solutions." ]} ].

Definition demo_posts : list dict :=
  [ {[ "title" := VStr "Top 7 Custom Home Interiors Trends";
       "slug" := VStr "custom-home-interiors-trends";
       "excerpt" := VStr "Explore the latest in custom home interiors.";
       "content" := VStr "Long-form content about custom home interiors...";
       "keywords" := VList [VStr "custom home interiors"; VStr "interior design"];
       "published" := VBool true ]} ].

(** Build a list of entities from their keyword arguments, left to right;
    the first constructor that fails raises. *)
Fixpoint construct_all {A} (new : dict -> result A) (kws : list dict)
  : result (list A) :=
  match kws with
  | [] => Return []
  | kw :: kws' => a ← new kw; l ← construct_all new kws'; Return (a :: l)
  end.

Definition seed_demo (token : option string) : World -> http_result * World :=
  fun w =>
    if bool_decide (token ≠ Some (getenv_default "SEED_TOKEN" "dev" w))
    then (HTTPException 403 "Forbidden", w)
    else
      or_500 (
        products ← lift (construct_all Product_new demo_products);
        for_each products (fun p => create_document "product" p;; mret tt);;
        testimonials ← lift (construct_all Testimonial_new demo_testimonials);
        for_each testimonials (fun t => create_document "testimonial" t;; mret tt);;
        projects ← lift (construct_all Project_new demo_projects);
        for_each projects (fun pr => create_document "project" pr;; mret tt);;
        posts ← lift (construct_all BlogPost_new demo_posts);
        for_each posts (fun b => create_document "blogpost" b;; mret tt);;
        mret (VDict {[ "status" := VStr "seeded" ]})) w.

(** [response[k] = v] on the local [response] dictionary. *)
Definition set_item (k : string) (v : value) : ST dict unit :=
  modify (fun response => <[k := v]> response).

(** [db.name if hasattr(db, 'name') else dflt]: an attribute whose lookup
    raises makes the expression raise. *)
Definition name_or (h : DbHandle) (dflt : value) : ST dict value :=
  match db_name h with
  | AttrValue v => mret v
  | AttrMissing => mret dflt
  | AttrRaises e => raise e
  end.

Definition test_database : World -> http_result * World :=
  fun w =>
    let response : dict :=
      {[ "backend" := VStr "✅ Running";
         "database" := VStr "❌ Not Available";
         "database_url" := VNone;
         "database_name" := VNone;
         "connection_status" := VStr "Not Connected";
         "collections" := VList [] ]} in
    let body : ST dict unit :=
      try_except
        (match db w with
         | Some h =>
             set_item "database" (VStr "✅ Available");;
             set_item "database_url" (VStr "✅ Configured");;
             name ← name_or h (VStr "✅ Connected");
             set_item "database_name" name;;
             set_item "connection_status" (VStr "Connected");;
             try_except
               (collections ← lift (db_list_collection_names h);
                set_item "collections" (VList (take 10 collections));;
                set_item "database" (VStr "✅ Connected & Working"))
               (fun e =>
                  set_item "database"
                    (VStr ("⚠️  Connected but Error: " ++ str_slice 50 (str_exn e))))
         | None => set_item "database" (VStr "⚠️  Available but not initialized")
         end)
        (fun e =>
           set_item "database" (VStr ("❌ Error: " ++ str_slice 50 (str_exn e))));;
      set_item "database_url"
        (VStr (if truthy (default "" (getenv "DATABASE_URL" w))
               then "✅ Set" else "❌ Not Set"));;
      set_item "database_name"
        (VStr (if truthy (default "" (getenv "DATABASE_NAME" w))
               then "✅ Set" else "❌ Not Set")) in
    match body response with
    | (Return _, response') => (Ok (VDict response'), w)
    | (Raise e, _) => (HTTPException 500 "Internal Server Error", w)
    end.

(** ** The parameter boundary of the routes *)

(** [Query(dflt, ge=lo, le=hi)] on an integer parameter: the default when
    the parameter is absent, a rejection when it is out of range. *)
Definition Query_int (dflt lo hi : Z) (raw : option Z) : option Z :=
  match raw with
  | None => Some dflt
  | Some r => if Z.leb lo r && Z.leb r hi then Some r else None
  end.

(** [GET /api/testimonials]: FastAPI answers 422 when the parameter is
    rejected and does not call the handler. *)
Definition get_testimonials (min_rating : option Z)
  : World -> http_result * World :=
  fun w => match Query_int 1 1 5 min_rating with
           | Some r => list_testimonials r w
           | None => (HTTPException 422 "Unprocessable Entity", w)
           end.

(** [GET /api/blogposts]: [published: bool = True]. *)
Definition get_blogposts (published : option bool) (keyword : option string)
  : World -> http_result * World :=
  list_blogposts (default true published) keyword.

(** ** schemas.py: the models no route constructs *)

(** pydantic's check that a string is a well-formed [EmailStr], a third
    parameter of the development. *)
Variable is_email : string -> bool.








(** ** main.py: the two greeting routes *)

Definition read_root : World -> http_result * World :=
  fun w => (Ok (VDict {[ "message" :=
                           VStr "Interior Design Studio Backend running" ]}), w).

Definition hello : World -> http_result * World :=
  fun w => (Ok (VDict {[ "message" := VStr "Hello from the backend API!" ]}), w).

(** ** Vocabulary of the properties *)

(** The storage raises nothing on its next call. *)
Definition storage_up (w : World) : Prop :=
  forall msg, head (faults w) <> Some (Some msg).

(** The world after a document has been stored. *)
Definition stored {A} `{BaseModel A} (name : string) (data : A) (w : World)
  : World :=
  with_store
    (store w ++ [(name, <["_id" := VObjectId (next_oid w)]> (model_dump data))])
    (N.succ (next_oid w)) (with_faults (tail (faults w)) w).

(** The configured seed secret: the value of [SEED_TOKEN], or ["dev"]. *)
Definition seed_secret (w : World) : string :=
  match environ w !! "SEED_TOKEN" with
  | Some s => s
  | None => "dev"
  end.

(** The number of documents of a collection. *)
Definition count (name : string) (w : World) : nat :=
  length (collection name (store w)).

(** The first [n] calls of the storage raise nothing. *)
Definition storage_up_for (n : nat) (w : World) : Prop :=
  Forall (fun f => f = None) (take n (faults w)).

(** The world after the storage has been asked for the documents of a
    collection. *)
Definition asked (name : string) (filt : dict) (w : World) : World :=
  with_faults (tail (faults w)) (with_finds (finds w ++ [(name, filt)]) w).

(** The next call of the storage raises [Exception(msg)]. *)
Definition storage_down (msg : string) (w : World) : Prop :=
  head (faults w) = Some (Some msg).

(** The storage raises nothing on its first [k] calls and
    [Exception(msg)] on the next one. *)
Definition storage_fails_at (k : nat) (msg : string) (w : World) : Prop :=
  storage_up_for k w /\ faults w !! k = Some (Some msg).

(** The collections of the documents [seed_demo] inserts, in the order of
    its loops. *)
Definition seed_order : list string :=
  ["product"; "product"; "testimonial"; "testimonial";
   "project"; "project"; "blogpost"].

(** From [w] to [w'] the documents of the collections [names] have been
    appended to the store, in this order, and nothing else has changed but
    the storage's script and counter. *)
Definition appended (names : list string) (w w' : World) : Prop :=
  environ w' = environ w /\ posts w' = posts w /\ finds w' = finds w
  /\ exists new, store w' = (store w ++ new)%list /\ new.*1 = names.

(** A computation that does nothing but insert one document into each of
    the collections [names], in this order: with the storage up for that
    many calls it returns, all of them inserted; when the storage raises on
    call [k], it raises the same exception, the first [k] inserted. *)
Definition inserts {A} (m : M A) (names : list string) : Prop :=
  forall w,
    (storage_up_for (length names) w ->
     exists a w', m w = (Return a, w')
                  /\ faults w' = drop (length names) (faults w)
                  /\ appended names w w')
    /\ (forall k msg, (k < length names)%nat -> storage_fails_at k msg w ->
        exists w', m w = (Raise (Exception msg), w')
                   /\ appended (take k names) w w').

(** What the diagnostics report for an environment variable: set, when it
    has a non-empty value. *)
Definition env_flag (name : string) (w : World) : string :=
  match getenv name w with
  | Some v => if String.eqb v "" then "❌ Not Set" else "✅ Set"
  | None => "❌ Not Set"
  end.

(** ** A concrete runtime for the examples *)

(** [str] on the values whose rendering is immediate: [None], booleans,
    integers, strings, and identifiers, which print as their number.  The
    examples below apply it to no other value; it answers the empty string
    there. *)
Definition str_value (v : value) : string :=
  match v with
  | VNone => "None"
  | VBool true => "True"
  | VBool false => "False"
  | VInt n => pretty n
  | VStr s => s
  | VObjectId oid => pretty oid
  | _ => ""
  end.

(** A check of the scheme of a URL, standing for pydantic's [HttpUrl]. *)
Definition http_scheme (s : string) : bool :=
  String.prefix "http://" s || String.prefix "https://" s.

(** An empty store, a storage that raises nothing, no environment variable
    set and a CRM that times out. *)
Definition world0 : World :=
  {| environ := ∅; db := None; store := []; next_oid := 1; faults := [];
     crm := CrmRaises (Exception "timeout"); finds := []; posts := [] |}.

Definition with_environ (env : gmap string string) (w : World) : World :=
  {| environ := env; db := db w; store := store w;
     next_oid := next_oid w; faults := faults w; crm := crm w;
     finds := finds w; posts := posts w |}.

Definition lead0 : Lead :=
  {| Lead_name := "Ava Patel"; Lead_email := "ava@example.com";
     Lead_phone := None; Lead_project_details := Some "Kitchen remodel";
     Lead_preferred_date := None; Lead_source := Some "website";
     Lead_consent := true |}.

(** A world with the CRM credential set. *)
Definition world_crm : World :=
  with_environ {[ "HUBSPOT_API_KEY" := "secret-key" ]} world0.

(** Three testimonials with the ratings 3, 5 and 4. *)
Definition world_rated : World :=
  with_store
    [ ("testimonial", {[ "_id" := VObjectId 1; "rating" := VInt 3 ]});
      ("testimonial", {[ "_id" := VObjectId 2; "rating" := VInt 5 ]});
      ("testimonial", {[ "_id" := VObjectId 3; "rating" := VInt 4 ]}) ]
    4 world0.


(** The credential set to the empty string. *)
Definition world_empty_key : World :=
  with_environ {[ "HUBSPOT_API_KEY" := "" ]} world0.

(** A storage that raises on its next call, the credential set. *)
Definition world_down : World :=
  with_faults [Some "connection refused"] world_crm.

(** A storage that raises on its fourth call. *)
Definition world_flaky : World :=
  with_faults [None; None; None; Some "disk full"] world0.

(** Two products and a project between them. *)
Definition world_catalog : World :=
  with_store
    [ ("product", {[ "_id" := VObjectId 1; "title" := VStr "Chair" ]});
      ("project", {[ "_id" := VObjectId 2; "title" := VStr "Loft" ]});
      ("product", {[ "_id" := VObjectId 3; "title" := VStr "Lamp" ]}) ]
    4 world0.

(** * Properties *)

(** ** The document transformer *)

Lemma serialize_docs_from (acc docs : list dict) :
  fold_left (fun serialized d => (serialized ++ [serialize_doc d])%list) docs acc
  = (acc ++ (serialize_doc <$> docs))%list.
Proof.
  revert acc. induction docs as [|d docs IH]; intros acc; simpl.
  - by rewrite app_nil_r.
  - rewrite IH. by rewrite <- app_assoc.
Qed.

Lemma serialize_docs_fmap (docs : list dict) :
  _serialize_docs docs = serialize_doc <$> docs.
Proof. unfold _serialize_docs. by rewrite serialize_docs_from. Qed.

Lemma serialize_doc_id (d : dict) (oid : value) :
  d !! "_id" = Some oid ->
  serialize_doc d !! "id" = Some (VStr (py_str oid))
  /\ serialize_doc d !! "_id" = None.
Proof.
  intros H. unfold serialize_doc. rewrite H. split.
  - by rewrite lookup_insert_eq.
  - rewrite lookup_insert_ne by done. by rewrite lookup_delete_eq.
Qed.

Lemma serialize_doc_other (d : dict) (k : string) :
  k <> "_id" -> k <> "id" -> serialize_doc d !! k = d !! k.
Proof.
  intros H1 H2. unfold serialize_doc. destruct (d !! "_id"); [|done].
  rewrite lookup_insert_ne by done. by rewrite lookup_delete_ne.
Qed.

Lemma serialize_doc_no_id (d : dict) :
  d !! "_id" = None -> serialize_doc d = d.
Proof. intros H. unfold serialize_doc. by rewrite H. Qed.

(** C1: [_serialize_docs] keeps the number and the order of the documents;
    the document at each position that had an ["_id"] carries, in its place,
    an ["id"] that is the string [str] of that ["_id"], and no ["_id"]; a
    document without ["_id"] is passed through as it is; and every field
    other than these two is the same before and after. *)
Theorem serialize_docs_spec (docs : list dict) :
  length (_serialize_docs docs) = length docs
  /\ forall (i : nat) (d : dict), docs !! i = Some d ->
       exists d', _serialize_docs docs !! i = Some d'
         /\ (forall oid, d !! "_id" = Some oid ->
               d' !! "id" = Some (VStr (py_str oid)) /\ d' !! "_id" = None)
         /\ (d !! "_id" = None -> d' = d)
         /\ (forall k, k <> "_id" -> k <> "id" -> d' !! k = d !! k).
Proof.
  rewrite serialize_docs_fmap. split.
  - by rewrite length_fmap.
  - intros i d Hi. exists (serialize_doc d). split.
    + by rewrite list_lookup_fmap, Hi.
    + split; [apply serialize_doc_id|].
      split; [apply serialize_doc_no_id|apply serialize_doc_other].
Qed.

(** ** The read routes *)

Ltac run :=
  unfold or_500, get_documents, create_document, requests_post, storage_call,
    try_except, lift, gets, modify, raise, mbind, mret, ST_bind, ST_ret,
    bind, ret; simpl.

(** Lookups in a dictionary built by item assignments. *)
Ltac lookups :=
  repeat first
    [ rewrite lookup_insert_eq
    | rewrite lookup_insert_ne by done
    | rewrite lookup_singleton_eq
    | rewrite lookup_singleton_ne by done
    | rewrite lookup_empty ].

(** "Key [k] holds [v] exactly when the parameter was supplied as ...",
    once both sides are explicit. *)
Ltac supplied_iff :=
  split;
  [ intros [= <-]; eauto 6
  | intros (? & [= <-] & ?); intuition congruence ].

(** The cases of the parameters of [products_filt]. *)
Ltac products_cases category room_type in_stock :=
  unfold products_filt, truthy;
  destruct category as [?c|], room_type as [?r|], in_stock as [?b|];
  repeat match goal with
         | |- context [String.eqb ?s ""] => destruct (String.eqb_spec s "")
         end;
  simpl; lookups.

(** What a read route does with its filter: it hands it to the storage once,
    and answers the serialized matching documents, or 500 when the storage
    raises. *)
Lemma read_route_run (name : string) (filt : dict) (w : World) :
  let r := or_500 (docs ← get_documents name filt;
                   mret (json_docs (_serialize_docs docs))) w in
  finds r.2 = (finds w ++ [(name, filt)])%list
  /\ store r.2 = store w
  /\ match r.1 with
     | Ok body =>
         body = json_docs (_serialize_docs
                  (filter (fun d => matches filt d = true)
                          (collection name (store w))))
     | HTTPException code _ => code = 500
     end.
Proof. run. destruct (head (faults w)) as [[msg|]|]; simpl; done. Qed.

(** A filter holds of a document exactly when each of its conditions
    does. *)
Lemma matches_all (filt d : dict) :
  matches filt d = true <->
  forall k c, filt !! k = Some c -> cond_holds c (d !! k) = true.
Proof.
  unfold matches. rewrite forallb_forall. split.
  - intros H k c Hk. apply (H (k, c)).
    apply list_elem_of_In. by apply elem_of_map_to_list.
  - intros H [k c] Hin. simpl. apply H.
    apply elem_of_map_to_list. by apply list_elem_of_In.
Qed.

Lemma products_filt_category (category room_type : option string)
    (in_stock : option bool) (v : value) :
  products_filt category room_type in_stock !! "category" = Some v <->
  exists c, category = Some c /\ c <> "" /\ v = VStr c.
Proof.
  products_cases category room_type in_stock; supplied_iff.
Qed.

Lemma products_filt_room_type (category room_type : option string)
    (in_stock : option bool) (v : value) :
  products_filt category room_type in_stock !! "room_type" = Some v <->
  exists r, room_type = Some r /\ r <> "" /\ v = VStr r.
Proof.
  products_cases category room_type in_stock; supplied_iff.
Qed.

Lemma products_filt_in_stock (category room_type : option string)
    (in_stock : option bool) (v : value) :
  products_filt category room_type in_stock !! "in_stock" = Some v <->
  exists b, in_stock = Some b /\ v = VBool b.
Proof.
  products_cases category room_type in_stock; supplied_iff.
Qed.

Lemma products_filt_keys (category room_type : option string)
    (in_stock : option bool) (k : string) :
  k <> "category" -> k <> "room_type" -> k <> "in_stock" ->
  products_filt category room_type in_stock !! k = None.
Proof.
  intros. by products_cases category room_type in_stock.
Qed.

(** C2 (as amended): [GET /api/products] hands the storage one filter for
    the collection ["product"]; it maps ["category"] to the supplied value
    exactly when [category] is supplied and not the empty string,
    ["room_type"] likewise, and ["in_stock"] to the supplied boolean exactly
    when [in_stock] is supplied; it has no other key; and a document matches
    it exactly when it satisfies every one of these conditions. *)
Theorem list_products_filter (category room_type : option string)
    (in_stock : option bool) (w : World) :
  let filt := products_filt category room_type in_stock in
  finds (list_products category room_type in_stock w).2
    = (finds w ++ [("product", filt)])%list
  /\ (forall v, filt !! "category" = Some v <->
        exists c, category = Some c /\ c <> "" /\ v = VStr c)
  /\ (forall v, filt !! "room_type" = Some v <->
        exists r, room_type = Some r /\ r <> "" /\ v = VStr r)
  /\ (forall v, filt !! "in_stock" = Some v <->
        exists b, in_stock = Some b /\ v = VBool b)
  /\ (forall k, k <> "category" -> k <> "room_type" -> k <> "in_stock" ->
        filt !! k = None)
  /\ (forall d, matches filt d = true <->
        forall k c, filt !! k = Some c -> cond_holds c (d !! k) = true).
Proof.
  intros filt. split; [apply read_route_run|].
  split; [intros v; apply products_filt_category|].
  split; [intros v; apply products_filt_room_type|].
  split; [intros v; apply products_filt_in_stock|].
  split; [apply products_filt_keys|apply matches_all].
Qed.

Lemma blogposts_filt_keywords (published : bool) (keyword : option string)
    (v : value) :
  blogposts_filt published keyword !! "keywords" = Some v <->
  exists k, keyword = Some k /\ k <> ""
            /\ v = VDict {[ "$in" := VList [VStr k] ]}.
Proof.
  unfold blogposts_filt, truthy.
  destruct keyword as [k|]; try destruct (String.eqb_spec k "");
    simpl; lookups; supplied_iff.
Qed.

Lemma blogposts_filt_published (published : bool) (keyword : option string) :
  blogposts_filt published keyword !! "published" = Some (VBool published).
Proof.
  unfold blogposts_filt.
  destruct keyword as [k|]; try destruct (truthy k); simpl; by simplify_map_eq.
Qed.

(** C6 (as amended): [GET /api/blogposts] hands the storage one filter for
    the collection ["blogpost"]; it always maps ["published"] to the
    supplied boolean, which is [True] when the parameter is absent; and it
    maps ["keywords"] to the condition "contains the keyword" exactly when
    [keyword] is supplied and not the empty string. *)
Theorem list_blogposts_filter (published : option bool)
    (keyword : option string) (w : World) :
  let filt := blogposts_filt (default true published) keyword in
  finds (get_blogposts published keyword w).2
    = (finds w ++ [("blogpost", filt)])%list
  /\ filt !! "published" = Some (VBool (default true published))
  /\ blogposts_filt true keyword !! "published" = Some (VBool true)
  /\ get_blogposts None keyword w = list_blogposts true keyword w
  /\ (forall v, filt !! "keywords" = Some v <->
        exists k, keyword = Some k /\ k <> ""
                  /\ v = VDict {[ "$in" := VList [VStr k] ]}).
Proof.
  intros filt. split; [apply read_route_run|].
  split; [apply blogposts_filt_published|].
  split; [apply blogposts_filt_published|].
  split; [done|]. intros v. apply blogposts_filt_keywords.
Qed.

(** C10: an empty string for [category], [room_type], [style], [room] or
    [keyword] is treated like an absent parameter: the route answers and
    acts as without it, and its filter has no key for it. *)
Theorem empty_string_is_absent (category room_type style room : option string)
    (in_stock : option bool) (published : bool) (w : World) :
  (list_products (Some "") room_type in_stock w
     = list_products None room_type in_stock w
   /\ products_filt (Some "") room_type in_stock !! "category" = None)
  /\ (list_products category (Some "") in_stock w
        = list_products category None in_stock w
      /\ products_filt category (Some "") in_stock !! "room_type" = None)
  /\ (list_projects (Some "") room w = list_projects None room w
      /\ projects_filt (Some "") room !! "style" = None)
  /\ (list_projects style (Some "") w = list_projects style None w
      /\ projects_filt style (Some "") !! "room" = None)
  /\ (list_blogposts published (Some "") w = list_blogposts published None w
      /\ blogposts_filt published (Some "") !! "keywords" = None).
Proof.
  repeat split; try reflexivity.
  - unfold products_filt.
    destruct room_type as [r|], in_stock as [b|]; try destruct (truthy r);
      simpl; by simplify_map_eq.
  - unfold products_filt.
    destruct category as [c|], in_stock as [b|]; try destruct (truthy c);
      simpl; by simplify_map_eq.
  - unfold projects_filt.
    destruct room as [r|]; try destruct (truthy r); simpl; by simplify_map_eq.
  - unfold projects_filt.
    destruct style as [s|]; try destruct (truthy s); simpl; by simplify_map_eq.
Qed.

Lemma gte_holds (r : Z) (field : option value) :
  cond_holds (VDict {[ "$gte" := VInt r ]}) field = true <->
  exists n, field = Some (VInt n) /\ r <= n.
Proof.
  unfold cond_holds. rewrite map_to_list_singleton. simpl.
  rewrite andb_true_r. split.
  - destruct field as [[]|]; try discriminate.
    intros H. eexists. split; [done|]. by apply Z.leb_le.
  - intros (n & -> & H). by apply Z.leb_le.
Qed.

Lemma testimonials_filt_matches (r : Z) (d : dict) :
  matches (testimonials_filt r) d = true <->
  exists n, d !! "rating" = Some (VInt n) /\ r <= n.
Proof.
  rewrite matches_all. unfold testimonials_filt. split.
  - intros H. apply gte_holds, H. apply lookup_singleton_eq.
  - intros H k c Hk. apply lookup_singleton_Some in Hk as [<- <-].
    by apply gte_holds.
Qed.

(** Every testimonial a call of [list_testimonials] answers has an integer
    rating of at least [min_rating]. *)
Lemma list_testimonials_ratings (r : Z) (w : World) :
  match (list_testimonials r w).1 with
  | Ok body =>
      exists docs, body = json_docs docs
        /\ Forall (fun d => exists n, d !! "rating" = Some (VInt n) /\ r <= n)
                  docs
  | HTTPException code _ => code = 500
  end.
Proof.
  pose proof (read_route_run "testimonial" (testimonials_filt r) w) as (_ & _ & H).
  unfold list_testimonials. cbv zeta in H.
  destruct (or_500 _ w) as [[body|code detail] w']; cbn [fst] in *; [|done].
  eexists. split; [exact H|].
  rewrite serialize_docs_fmap. apply Forall_fmap, Forall_forall.
  intros d Hd. apply list_elem_of_filter in Hd as [Hm _].
  apply testimonials_filt_matches in Hm as (n & Hn & Hle).
  exists n. split; [|done]. by rewrite serialize_doc_other.
Qed.

(** C5: [GET /api/testimonials] with [min_rating = r] in range hands the
    storage the filter [rating >= r], and every testimonial it answers has a
    rating of at least [r] (the storage collaborator honouring filters); an
    absent [min_rating] is 1; and an [r] outside 1..5 is rejected with 422
    before the handler runs: nothing is asked of the storage. *)
Theorem list_testimonials_min_rating (r : Z) (w : World) :
  (finds (list_testimonials r w).2
     = (finds w ++ [("testimonial",
                     {[ "rating" := VDict {[ "$gte" := VInt r ]} ]})])%list
   /\ match (list_testimonials r w).1 with
      | Ok body =>
          exists docs, body = json_docs docs
            /\ Forall (fun d => exists n, d !! "rating" = Some (VInt n) /\ r <= n)
                      docs
      | HTTPException code _ => code = 500
      end)
  /\ get_testimonials None w = list_testimonials 1 w
  /\ (1 <= r <= 5 -> get_testimonials (Some r) w = list_testimonials r w)
  /\ (r < 1 \/ 5 < r ->
        exists detail,
          get_testimonials (Some r) w = (HTTPException 422 detail, w)).
Proof.
  split; [split|].
  - apply (read_route_run "testimonial" (testimonials_filt r) w).
  - apply list_testimonials_ratings.
  - split; [done|]. unfold get_testimonials, Query_int. split.
    + intros [H1 H2]. apply Z.leb_le in H1, H2. by rewrite H1, H2.
    + intros H. eexists.
      destruct (Z.leb_spec 1 r), (Z.leb_spec r 5); simpl; try done; lia.
Qed.

(** ** Lead intake *)

Lemma bind_Return {S A B} (m : ST S A) (k : A -> ST S B) (s s' : S) (a : A) :
  m s = (Return a, s') -> (x ← m; k x) s = k a s'.
Proof. intros H. unfold mbind, ST_bind, bind. by rewrite H. Qed.

Lemma bind_Raise {S A B} (m : ST S A) (k : A -> ST S B) (s s' : S) (e : exn) :
  m s = (Raise e, s') -> (x ← m; k x) s = (Raise e, s').
Proof. intros H. unfold mbind, ST_bind, bind. by rewrite H. Qed.

Lemma create_document_up {A} `{BaseModel A} (name : string) (data : A)
    (w : World) :
  storage_up w ->
  create_document name data w
  = (Return (py_str (VObjectId (next_oid w))), stored name data w).
Proof.
  intros Hup. run. destruct (head (faults w)) as [[msg|]|] eqn:E; try done.
  by destruct (Hup msg).
Qed.

Lemma create_document_Return {A} `{BaseModel A} (name : string) (data : A)
    (w w1 : World) (doc_id : string) :
  create_document name data w = (Return doc_id, w1) ->
  storage_up w /\ doc_id = py_str (VObjectId (next_oid w))
  /\ w1 = stored name data w.
Proof.
  run. destruct (head (faults w)) as [[msg|]|] eqn:E; simpl; intros Heq;
    inversion Heq; subst; repeat split; intros m; congruence.
Qed.

Lemma create_document_Raise {A} `{BaseModel A} (name : string) (data : A)
    (w w1 : World) (e : exn) :
  create_document name data w = (Raise e, w1) ->
  store w1 = store w /\ posts w1 = posts w.
Proof.
  run. destruct (head (faults w)) as [[msg|]|] eqn:E; simpl; intros Heq;
    inversion Heq; subst; done.
Qed.

(** C3: when the lead is persisted, [POST /api/leads] answers the new
    lead's identifier with the status ["received"], whatever the CRM call
    does (it raises, or it answers any status code), and stores nothing but
    the lead; and with [HUBSPOT_API_KEY] unset no outbound call is made. *)
Theorem create_lead_received (lead : Lead) (w w1 : World) (lead_id : string) :
  create_document "lead" lead w = (Return lead_id, w1) ->
  (forall c : crm_outcome,
     (create_lead lead (with_crm c w)).1
       = Ok (VDict {[ "id" := VStr lead_id; "status" := VStr "received" ]})
     /\ store (create_lead lead (with_crm c w)).2 = store w1)
  /\ (getenv "HUBSPOT_API_KEY" w = None ->
      posts (create_lead lead w).2 = posts w).
Proof.
  intros Hdoc. apply create_document_Return in Hdoc as (Hup & -> & ->).
  split.
  - intros c. unfold create_lead, or_500.
    erewrite bind_Return; [|apply create_document_up; exact Hup].
    run. unfold getenv. simpl.
    destruct (environ w !! "HUBSPOT_API_KEY") as [key|]; [|done].
    destruct (truthy key); [|done].
    destruct c; done.
  - intros Henv. unfold create_lead, or_500.
    erewrite bind_Return; [|apply create_document_up; exact Hup].
    run. unfold getenv in *. simpl. by rewrite Henv.
Qed.

(** Without a credential no outbound call is made, whether or not the lead
    could be persisted. *)
Lemma create_lead_no_key (lead : Lead) (w : World) :
  getenv "HUBSPOT_API_KEY" w = None ->
  posts (create_lead lead w).2 = posts w.
Proof.
  intros Henv. unfold create_lead, or_500.
  destruct (create_document "lead" lead w) as [[lead_id|e] w1] eqn:E.
  - erewrite bind_Return; [|exact E].
    apply create_document_Return in E as (_ & _ & ->).
    run. unfold getenv in *. simpl. by rewrite Henv.
  - erewrite bind_Raise; [|exact E].
    by apply create_document_Raise in E as [_ ?].
Qed.

(** ** Demo seed *)

Lemma getenv_seed_token (w : World) :
  getenv_default "SEED_TOKEN" "dev" w = seed_secret w.
Proof. unfold getenv_default, seed_secret. by destruct (environ w !! _). Qed.

(** C4: with a token that is not the configured secret, [POST
    /api/seed-demo] answers 403 and leaves the world as it was: no document
    is inserted. *)
Theorem seed_demo_forbidden (token : option string) (w : World) :
  token <> Some (seed_secret w) ->
  seed_demo token w = (HTTPException 403 "Forbidden", w)
  /\ store (seed_demo token w).2 = store w.
Proof.
  intros Hne. unfold seed_demo. rewrite getenv_seed_token.
  by rewrite bool_decide_eq_true_2.
Qed.

Lemma collection_app (name : string) (st1 st2 : list (string * dict)) :
  collection name (st1 ++ st2) = (collection name st1 ++ collection name st2)%list.
Proof. unfold collection. by rewrite filter_app, fmap_app. Qed.

Lemma count_stored {A} `{BaseModel A} (name c : string) (data : A) (w : World) :
  count c (stored name data w)
  = (count c w + (if bool_decide (name = c) then 1 else 0))%nat.
Proof.
  unfold count, stored. simpl. rewrite collection_app, length_app.
  f_equal. unfold collection. rewrite filter_cons, filter_nil. simpl.
  destruct (bool_decide (name = c)); simpl; done.
Qed.

Lemma storage_up_for_S (n : nat) (w : World) :
  storage_up_for (S n) w -> storage_up w.
Proof.
  unfold storage_up_for, storage_up. destruct (faults w) as [|f fs]; [done|].
  simpl. intros Hall msg Hf. apply Forall_cons in Hall as [Hnone _].
  congruence.
Qed.

(** A loop of inserts into one collection, the storage raising nothing:
    each entity adds one document to that collection and none to another,
    and the loop uses up one storage call per entity. *)
Lemma for_each_create {A} `{BaseModel A} (name : string) (xs : list A)
    (w : World) :
  storage_up_for (length xs) w ->
  exists w',
    for_each xs (fun x => create_document name x;; mret tt) w = (Return tt, w')
    /\ environ w' = environ w
    /\ faults w' = drop (length xs) (faults w)
    /\ length (store w') = (length (store w) + length xs)%nat
    /\ forall c, count c w'
         = (count c w + (if bool_decide (name = c) then length xs else 0))%nat.
Proof.
  revert w. induction xs as [|x xs IH]; intros w Hup.
  - exists w. simpl. repeat split; try done.
    intros c. destruct (bool_decide _); lia.
  - pose proof (storage_up_for_S _ _ Hup) as Hup1.
    destruct (IH (stored name x w)) as (w' & Hrun & Henv & Hf & Hlen & Hcnt).
    { unfold storage_up_for in *. simpl in *.
      destruct (faults w) as [|f fs]; simpl in *; [by rewrite take_nil|].
      by apply Forall_cons in Hup as [_ ?]. }
    exists w'. split; [|split; [|split; [|split]]].
    + simpl. erewrite bind_Return; [exact Hrun|].
      erewrite bind_Return; [reflexivity|]. by apply create_document_up.
    + by rewrite Henv.
    + rewrite Hf. simpl. destruct (faults w) as [|f fs]; simpl; [|done].
      by rewrite drop_nil.
    + rewrite Hlen. simpl. rewrite length_app. simpl. lia.
    + intros c. rewrite Hcnt, count_stored. simpl.
      destruct (bool_decide (name = c)); lia.
Qed.

Lemma storage_up_for_take (a b : nat) (w : World) :
  storage_up_for (a + b) w -> storage_up_for a w.
Proof.
  unfold storage_up_for. intros Hup.
  replace a with (a `min` (a + b))%nat by lia.
  rewrite <- take_take. by apply Forall_take.
Qed.

Lemma storage_up_for_drop (a b : nat) (w w1 : World) :
  storage_up_for (a + b) w ->
  faults w1 = drop a (faults w) ->
  storage_up_for b w1.
Proof.
  unfold storage_up_for. intros Hup Hf.
  rewrite Hf, take_drop_commute. by apply Forall_drop.
Qed.

Lemma demo_products_valid :
  exists ps, construct_all Product_new demo_products = Return ps
             /\ length ps = 2%nat.
Proof. eexists. split; reflexivity. Qed.

Lemma demo_testimonials_valid :
  exists ts, construct_all Testimonial_new demo_testimonials = Return ts
             /\ length ts = 2%nat.
Proof. eexists. split; reflexivity. Qed.

Lemma demo_projects_valid :
  exists prs, construct_all Project_new demo_projects = Return prs
              /\ length prs = 2%nat.
Proof. eexists. split; reflexivity. Qed.

Lemma demo_posts_valid :
  exists bs, construct_all BlogPost_new demo_posts = Return bs
             /\ length bs = 1%nat.
Proof. eexists. split; reflexivity. Qed.

(** One run of the seed route with the right token, the storage raising
    nothing on its seven calls. *)
Lemma seed_demo_run (token : option string) (w : World) :
  token = Some (seed_secret w) ->
  storage_up_for 7 w ->
  exists w',
    seed_demo token w = (Ok (VDict {[ "status" := VStr "seeded" ]}), w')
    /\ environ w' = environ w
    /\ faults w' = drop 7 (faults w)
    /\ count "product" w' = (count "product" w + 2)%nat
    /\ count "testimonial" w' = (count "testimonial" w + 2)%nat
    /\ count "project" w' = (count "project" w + 2)%nat
    /\ count "blogpost" w' = (count "blogpost" w + 1)%nat
    /\ length (store w') = (length (store w) + 7)%nat.
Proof.
  intros Htok Hup. unfold seed_demo. rewrite getenv_seed_token.
  rewrite bool_decide_eq_false_2 by (intros Hne; by apply Hne).
  destruct demo_products_valid as (ps & -> & Lps).
  destruct demo_testimonials_valid as (ts & -> & Lts).
  destruct demo_projects_valid as (prs & -> & Lprs).
  destruct demo_posts_valid as (bs & -> & Lbs).
  pose proof (storage_up_for_take 2 5 w Hup) as Hup1.
  rewrite <- Lps in Hup1.
  destruct (for_each_create "product" ps w Hup1)
    as (w1 & R1 & E1 & F1 & L1 & C1).
  rewrite Lps in F1.
  pose proof (storage_up_for_drop 2 5 w w1 Hup F1) as Hup5.
  pose proof (storage_up_for_take 2 3 w1 Hup5) as Hup2.
  rewrite <- Lts in Hup2.
  destruct (for_each_create "testimonial" ts w1 Hup2)
    as (w2 & R2 & E2 & F2 & L2 & C2).
  rewrite Lts in F2.
  pose proof (storage_up_for_drop 2 3 w1 w2 Hup5 F2) as Hup3.
  pose proof (storage_up_for_take 2 1 w2 Hup3) as Hup4.
  rewrite <- Lprs in Hup4.
  destruct (for_each_create "project" prs w2 Hup4)
    as (w3 & R3 & E3 & F3 & L3 & C3).
  rewrite Lprs in F3.
  pose proof (storage_up_for_drop 2 1 w2 w3 Hup3 F3) as Hup6.
  rewrite <- Lbs in Hup6.
  destruct (for_each_create "blogpost" bs w3 Hup6)
    as (w4 & R4 & E4 & F4 & L4 & C4).
  exists w4. split.
  - unfold or_500.
    erewrite bind_Return; [|reflexivity].
    erewrite bind_Return; [|exact R1].
    erewrite bind_Return; [|reflexivity].
    erewrite bind_Return; [|exact R2].
    erewrite bind_Return; [|reflexivity].
    erewrite bind_Return; [|exact R3].
    erewrite bind_Return; [|reflexivity].
    erewrite bind_Return; [|exact R4].
    reflexivity.
  - split; [congruence|]. split.
    { rewrite F4, F3, F2, F1, Lbs, !drop_drop. by simpl. }
    rewrite !C4, !C3, !C2, !C1, L4, L3, L2, L1, Lps, Lts, Lprs, Lbs.
    repeat split; simpl; lia.
Qed.

(** C7: with the right token and the storage raising nothing on the seven
    inserts, one call of [POST /api/seed-demo] inserts 2 products, 2
    testimonials, 2 projects and 1 blog post, 7 documents in all, and answers
    [{"status": "seeded"}]; a second call, under the same condition, inserts
    as many again, so that the counts are doubled. *)
Theorem seed_demo_counts (token : option string) (w : World) :
  token = Some (seed_secret w) ->
  storage_up_for 7 w ->
  exists w1,
    seed_demo token w = (Ok (VDict {[ "status" := VStr "seeded" ]}), w1)
    /\ faults w1 = drop 7 (faults w)
    /\ (count "product" w1 = (count "product" w + 2)%nat
        /\ count "testimonial" w1 = (count "testimonial" w + 2)%nat
        /\ count "project" w1 = (count "project" w + 2)%nat
        /\ count "blogpost" w1 = (count "blogpost" w + 1)%nat
        /\ length (store w1) = (length (store w) + 7)%nat)
    /\ (storage_up_for 7 w1 ->
        exists w2,
          seed_demo token w1 = (Ok (VDict {[ "status" := VStr "seeded" ]}), w2)
          /\ count "product" w2 = (count "product" w + 4)%nat
          /\ count "testimonial" w2 = (count "testimonial" w + 4)%nat
          /\ count "project" w2 = (count "project" w + 4)%nat
          /\ count "blogpost" w2 = (count "blogpost" w + 2)%nat
          /\ length (store w2) = (length (store w) + 14)%nat).
Proof.
  intros Htok Hup.
  destruct (seed_demo_run token w Htok Hup)
    as (w1 & R1 & E1 & F1 & P1 & T1 & J1 & B1 & L1).
  exists w1. split; [done|]. split; [done|]. split; [done|].
  intros Hup1.
  assert (Htok1 : token = Some (seed_secret w1)).
  { unfold seed_secret in *. by rewrite E1. }
  destruct (seed_demo_run token w1 Htok1 Hup1)
    as (w2 & R2 & E2 & F2 & P2 & T2 & J2 & B2 & L2).
  exists w2. repeat split; try done; lia.
Qed.

(** ** Diagnostics *)

Ltac run_local :=
  cbv beta iota zeta delta
    [try_except set_item modify lift raise name_or db_name
     db_list_collection_names mbind mret ST_bind ST_ret bind ret].

(** C8: whatever the state of the storage handle (not initialized, present
    with an attribute or an introspection that raises, or working), [GET
    /test] raises nothing and answers a diagnostics object, with the world
    as it was; the state of the database is reported as a string under
    ["database"], and ["collections"] is a list of at most 10 items. *)
Theorem test_database_total (w : World) :
  exists (response : dict) (collections : list value) (status : string),
    test_database w = (Ok (VDict response), w)
    /\ response !! "collections" = Some (VList collections)
    /\ (length collections <= 10)%nat
    /\ response !! "database" = Some (VStr status).
Proof.
  unfold test_database. destruct (db w) as [[nm cols]|].
  - destruct nm as [|v|e]; [destruct cols as [l|e] | destruct cols as [l|e] |];
      run_local; do 3 eexists;
      (split; [reflexivity|]);
      (split; [by simplify_map_eq|]);
      (split; [|by simplify_map_eq]);
      simpl; rewrite ?length_take; lia.
  - run_local. do 3 eexists.
    split; [reflexivity|]. split; [by simplify_map_eq|].
    split; [|by simplify_map_eq]. simpl. lia.
Qed.

(** ** Schemas: the list-typed optional fields *)

Lemma field_optional_list_Return (ok : string -> bool) (kw : dict) (k : string)
    (o : option (list string)) :
  field_optional_list ok kw k = Return o ->
  (kw !! k = None -> o = Some [])
  /\ (o = None <-> kw !! k = Some VNone).
Proof.
  unfold field_optional_list.
  destruct (kw !! k) as [[]|]; try discriminate.
  - intros [= <-]. split; [done|]. split; done.
  - unfold mbind, result_bind. destruct (list_items ok k l); [|discriminate].
    intros [= <-]. split; [done|]. split; done.
  - intros [= <-]. split; [done|]. split; done.
Qed.

Ltac bind_cases :=
  unfold mbind, result_bind;
  repeat match goal with
         | |- context [match ?r with Return _ => _ | Raise _ => _ end] =>
             destruct r; [|discriminate]
         end.

Lemma Product_new_tags (kw : dict) (p : Product) :
  Product_new kw = Return p ->
  field_optional_list any_str kw "tags" = Return (Product_tags p).
Proof.
  unfold Product_new.
  destruct (field_optional_list any_str kw "tags") as [tags|e] eqn:E;
    bind_cases; [by intros [= <-]|discriminate].
Qed.

Lemma Project_new_gallery (kw : dict) (p : Project) :
  Project_new kw = Return p ->
  field_optional_list is_http_url kw "gallery" = Return (Project_gallery p).
Proof.
  unfold Project_new.
  destruct (field_optional_list is_http_url kw "gallery") as [gallery|e] eqn:E;
    bind_cases; [by intros [= <-]|discriminate].
Qed.

Lemma BlogPost_new_keywords (kw : dict) (b : BlogPost) :
  BlogPost_new kw = Return b ->
  field_optional_list any_str kw "keywords" = Return (BlogPost_keywords b).
Proof.
  unfold BlogPost_new.
  destruct (field_optional_list any_str kw "keywords") as [keywords|e] eqn:E;
    bind_cases; [by intros [= <-]|discriminate].
Qed.

(** C9 (as amended): in every successful construction of a [Product], a
    [Project] or a [BlogPost], the list field ([tags], [gallery],
    [keywords]) is the empty list when the field is omitted from the input,
    and it is null exactly when the input gives it as an explicit null. *)
Theorem list_fields_default (kw : dict) :
  (forall p, Product_new kw = Return p ->
     (kw !! "tags" = None -> Product_tags p = Some [])
     /\ (Product_tags p = None <-> kw !! "tags" = Some VNone))
  /\ (forall p, Project_new kw = Return p ->
        (kw !! "gallery" = None -> Project_gallery p = Some [])
        /\ (Project_gallery p = None <-> kw !! "gallery" = Some VNone))
  /\ (forall b, BlogPost_new kw = Return b ->
        (kw !! "keywords" = None -> BlogPost_keywords b = Some [])
        /\ (BlogPost_keywords b = None <-> kw !! "keywords" = Some VNone)).
Proof.
  split; [|split].
  - intros p Hp. eapply field_optional_list_Return. by apply Product_new_tags.
  - intros p Hp. eapply field_optional_list_Return. by apply Project_new_gallery.
  - intros b Hb. eapply field_optional_list_Return. by apply BlogPost_new_keywords.
Qed.

(** * Further properties *)

(** ** The document transformer, continued *)

Lemma serialize_doc_idem (d : dict) :
  serialize_doc (serialize_doc d) = serialize_doc d.
Proof.
  apply serialize_doc_no_id. destruct (d !! "_id") as [oid|] eqn:E.
  - by apply (serialize_doc_id d oid).
  - by rewrite serialize_doc_no_id.
Qed.

(** X1: serializing is idempotent: a list that has been serialized is
    left as it is by a second pass. *)
Theorem serialize_docs_idempotent (docs : list dict) :
  _serialize_docs (_serialize_docs docs) = _serialize_docs docs.
Proof.
  rewrite !serialize_docs_fmap, <- list_fmap_compose.
  apply list_fmap_ext. intros i d _. apply serialize_doc_idem.
Qed.

(** X2: serializing goes through a concatenation of lists, and so through
    any split of the storage's answer; the empty list gives the empty
    list. *)
Theorem serialize_docs_app (docs1 docs2 : list dict) :
  _serialize_docs (docs1 ++ docs2)
    = (_serialize_docs docs1 ++ _serialize_docs docs2)%list
  /\ _serialize_docs [] = [].
Proof. rewrite !serialize_docs_fmap. by rewrite fmap_app. Qed.

(** X3: the number of fields of a serialized document: a document without
    ["_id"] keeps its fields; one with ["_id"] and no ["id"] keeps their
    number, ["id"] taking the place of ["_id"]; one with both has one field
    less, its stored ["id"] being replaced. *)
Theorem serialize_doc_size (d : dict) :
  size (serialize_doc d)
  = match d !! "_id", d !! "id" with
    | None, _ => size d
    | Some _, None => size d
    | Some _, Some _ => (size d - 1)%nat
    end.
Proof.
  unfold serialize_doc.
  destruct (d !! "_id") as [oid|] eqn:E; [|by destruct (d !! "id")].
  assert (Hd : size d = S (size (delete "_id" d))).
  { rewrite <- (insert_delete_id d "_id" oid) at 1 by done.
    apply map_size_insert_None, lookup_delete_eq. }
  destruct (d !! "id") as [v|] eqn:E'.
  - rewrite map_size_insert_Some; [lia|].
    rewrite lookup_delete_ne by done. by rewrite E'.
  - rewrite map_size_insert_None; [lia|].
    rewrite lookup_delete_ne by done. by rewrite E'.
Qed.

(** ** The read routes, continued *)

Lemma read_route_up (name : string) (filt : dict) (w : World) :
  storage_up w ->
  or_500 (docs ← get_documents name filt;
          mret (json_docs (_serialize_docs docs))) w
  = (Ok (json_docs (_serialize_docs
           (filter (fun d => matches filt d = true)
                   (collection name (store w))))),
     asked name filt w).
Proof.
  intros Hup. run. unfold asked.
  destruct (head (faults w)) as [[msg|]|] eqn:E; try done.
  by destruct (Hup msg).
Qed.

Lemma read_route_down (name : string) (filt : dict) (w : World) (msg : string) :
  storage_down msg w ->
  or_500 (docs ← get_documents name filt;
          mret (json_docs (_serialize_docs docs))) w
  = (HTTPException 500 msg, asked name filt w).
Proof. unfold storage_down. intros Hdown. run. by rewrite Hdown. Qed.

Lemma read_route_frame (name : string) (filt : dict) (w : World) :
  (or_500 (docs ← get_documents name filt;
           mret (json_docs (_serialize_docs docs))) w).2
  = asked name filt w.
Proof. run. by destruct (head (faults w)) as [[msg|]|]. Qed.

(** X4: when the storage raises, each of the four read routes answers 500
    with the text of the storage's exception as detail. *)
Theorem read_routes_storage_error (msg : string) (w : World)
    (category room_type style room keyword : option string)
    (in_stock : option bool) (min_rating : Z) (published : bool) :
  storage_down msg w ->
  (list_products category room_type in_stock w).1 = HTTPException 500 msg
  /\ (list_projects style room w).1 = HTTPException 500 msg
  /\ (list_testimonials min_rating w).1 = HTTPException 500 msg
  /\ (list_blogposts published keyword w).1 = HTTPException 500 msg.
Proof.
  intros Hdown.
  unfold list_products, list_projects, list_testimonials, list_blogposts.
  cbv zeta. by rewrite !(read_route_down _ _ w msg Hdown).
Qed.

(** X5: the read routes are read-only: whatever they answer, the store,
    the identifier counter, the environment and the outbound calls are as
    before, and the storage has been asked exactly once. *)
Theorem read_routes_read_only (w : World)
    (category room_type style room keyword : option string)
    (in_stock : option bool) (min_rating : Z) (published : bool) :
  Forall (fun w' : World =>
            store w' = store w /\ next_oid w' = next_oid w
            /\ environ w' = environ w /\ posts w' = posts w
            /\ faults w' = tail (faults w)
            /\ length (finds w') = S (length (finds w)))
    [ (list_products category room_type in_stock w).2;
      (list_projects style room w).2;
      (list_testimonials min_rating w).2;
      (list_blogposts published keyword w).2 ].
Proof.
  unfold list_products, list_projects, list_testimonials, list_blogposts.
  cbv zeta. rewrite !read_route_frame.
  repeat constructor; simpl; rewrite length_app; simpl; lia.
Qed.

Lemma matches_empty (d : dict) : matches ∅ d = true.
Proof. apply matches_all. intros k c Hk. by rewrite lookup_empty in Hk. Qed.

Lemma filter_matches_empty (docs : list dict) :
  filter (fun d => matches ∅ d = true) docs = docs.
Proof.
  induction docs as [|d docs IH]; [done|].
  rewrite filter_cons_True by apply matches_empty. by rewrite IH.
Qed.

(** X6: without parameters, [GET /api/products] and [GET /api/projects]
    answer every document of their collection, serialized, in the order of
    the storage. *)
Theorem list_all_without_parameters (w : World) :
  storage_up w ->
  (list_products None None None w).1
    = Ok (json_docs (_serialize_docs (collection "product" (store w))))
  /\ (list_projects None None w).1
     = Ok (json_docs (_serialize_docs (collection "project" (store w)))).
Proof.
  intros Hup. unfold list_products, list_projects. cbv zeta.
  rewrite !read_route_up by done.
  unfold products_filt, projects_filt. simpl.
  by rewrite !filter_matches_empty.
Qed.

Lemma projects_filt_style (style room : option string) (v : value) :
  projects_filt style room !! "style" = Some v <->
  exists s, style = Some s /\ s <> "" /\ v = VStr s.
Proof.
  unfold projects_filt, truthy. destruct style as [s|], room as [r|];
    repeat match goal with
           | |- context [String.eqb ?x ""] => destruct (String.eqb_spec x "")
           end;
    simpl; lookups; supplied_iff.
Qed.

Lemma projects_filt_room (style room : option string) (v : value) :
  projects_filt style room !! "room" = Some v <->
  exists r, room = Some r /\ r <> "" /\ v = VStr r.
Proof.
  unfold projects_filt, truthy. destruct style as [s|], room as [r|];
    repeat match goal with
           | |- context [String.eqb ?x ""] => destruct (String.eqb_spec x "")
           end;
    simpl; lookups; supplied_iff.
Qed.

(** X7: [GET /api/projects] hands the storage one filter for the collection
    ["project"]; it maps ["style"] to the supplied value exactly when [style]
    is supplied and not the empty string, ["room"] likewise, and has no other
    key. *)
Theorem list_projects_filter (style room : option string) (w : World) :
  let filt := projects_filt style room in
  finds (list_projects style room w).2 = (finds w ++ [("project", filt)])%list
  /\ (forall v, filt !! "style" = Some v <->
        exists s, style = Some s /\ s <> "" /\ v = VStr s)
  /\ (forall v, filt !! "room" = Some v <->
        exists r, room = Some r /\ r <> "" /\ v = VStr r)
  /\ (forall k, k <> "style" -> k <> "room" -> filt !! k = None).
Proof.
  intros filt. split; [apply read_route_run|].
  split; [intros v; apply projects_filt_style|].
  split; [intros v; apply projects_filt_room|].
  intros k Hs Hr. unfold filt, projects_filt.
  destruct style as [s|], room as [r|];
    try destruct (truthy s); try destruct (truthy r); simpl; by lookups.
Qed.

(** What every answered document of a read route satisfies, from what the
    matching stored documents satisfy once serialized. *)
Lemma read_route_answers (name : string) (filt : dict) (w : World)
    (P : dict -> Prop) :
  (forall d, matches filt d = true -> P (serialize_doc d)) ->
  match (or_500 (docs ← get_documents name filt;
                 mret (json_docs (_serialize_docs docs))) w).1 with
  | Ok body => exists docs, body = json_docs docs /\ Forall P docs
  | HTTPException code _ => code = 500
  end.
Proof.
  intros HP. pose proof (read_route_run name filt w) as (_ & _ & H).
  cbv zeta in H.
  destruct (or_500 _ w) as [[body|code detail] w']; cbn [fst] in *; [|done].
  eexists. split; [exact H|].
  rewrite serialize_docs_fmap. apply Forall_fmap, Forall_forall.
  intros d Hd. apply list_elem_of_filter in Hd as [Hm _]. by apply HP.
Qed.

Lemma scalar_eqb_str (k : string) (v : value) :
  scalar_eqb (VStr k) v = true <-> v = VStr k.
Proof.
  destruct v; simpl; try (split; [discriminate|congruence]).
  rewrite String.eqb_eq. split; congruence.
Qed.

Lemma in_holds (k : string) (field : option value) :
  cond_holds (VDict {[ "$in" := VList [VStr k] ]}) field = true <->
  exists elems, field = Some (VList elems) /\ VStr k ∈ elems.
Proof.
  unfold cond_holds. rewrite map_to_list_singleton. simpl.
  rewrite andb_true_r. split.
  - destruct field as [[]|]; try discriminate.
    unfold op_holds. simpl. rewrite orb_false_r.
    intros H. eexists. split; [done|].
    apply existsb_exists in H as (e & He & Heq).
    apply scalar_eqb_str in Heq as ->. by apply list_elem_of_In.
  - intros (elems & -> & Hin). unfold op_holds. simpl. rewrite orb_false_r.
    apply existsb_exists. exists (VStr k). split.
    + by apply list_elem_of_In.
    + by apply scalar_eqb_str.
Qed.

Lemma published_holds (b : bool) (field : option value) :
  cond_holds (VBool b) field = true <-> field = Some (VBool b).
Proof.
  unfold cond_holds. destruct field as [[]|]; simpl;
    try (split; [discriminate|congruence]).
  rewrite Bool.eqb_true_iff. split; congruence.
Qed.

(** X8: every blog post [GET /api/blogposts] answers has the requested
    [published] flag, and, when a non-empty [keyword] is given, a
    [keywords] list that contains it (the storage honouring the filter);
    the only other answer is 500. *)
Theorem list_blogposts_answers (published : bool) (keyword : option string)
    (w : World) :
  match (list_blogposts published keyword w).1 with
  | Ok body =>
      exists docs, body = json_docs docs
        /\ Forall (fun d =>
             d !! "published" = Some (VBool published)
             /\ forall k, keyword = Some k -> k <> "" ->
                  exists elems, d !! "keywords" = Some (VList elems)
                                /\ VStr k ∈ elems) docs
  | HTTPException code _ => code = 500
  end.
Proof.
  apply read_route_answers. intros d Hm.
  rewrite !serialize_doc_other by done.
  rewrite matches_all in Hm. split.
  - apply published_holds, Hm, blogposts_filt_published.
  - intros k -> Hk. apply in_holds, Hm, blogposts_filt_keywords. eauto.
Qed.

(** X9: raising [min_rating] only removes testimonials: on the same
    store, what [list_testimonials] answers for the larger bound is a
    sublist, in the same order, of what it answers for the smaller one. *)
Theorem list_testimonials_monotone (r1 r2 : Z) (w : World) :
  r1 <= r2 ->
  storage_up w ->
  exists docs1 docs2,
    (list_testimonials r1 w).1 = Ok (json_docs docs1)
    /\ (list_testimonials r2 w).1 = Ok (json_docs docs2)
    /\ sublist docs2 docs1.
Proof.
  intros Hle Hup. unfold list_testimonials. cbv zeta.
  rewrite !read_route_up by done. do 2 eexists.
  split; [reflexivity|]. split; [reflexivity|].
  rewrite !serialize_docs_fmap. apply fmap_sublist.
  rewrite <- (list_filter_filter_l
                (fun d => matches (testimonials_filt r2) d = true)
                (fun d => matches (testimonials_filt r1) d = true)).
  - apply sublist_filter.
  - intros d. rewrite !testimonials_filt_matches.
    intros (n & Hn & Hr). exists n. split; [done|lia].
Qed.

(** ** Lead intake, continued *)

Lemma create_document_down {A} `{BaseModel A} (name : string) (data : A)
    (w : World) (msg : string) :
  storage_down msg w ->
  create_document name data w
  = (Raise (Exception msg), with_faults (tail (faults w)) w).
Proof. unfold storage_down. intros Hdown. run. by rewrite Hdown. Qed.

(** X10: when the storage raises on the insert, [POST /api/leads] answers
    500 with the text of the exception; no lead is stored and the CRM is not
    called, credential or not. *)
Theorem create_lead_storage_error (lead : Lead) (w : World) (msg : string) :
  storage_down msg w ->
  (create_lead lead w).1 = HTTPException 500 msg
  /\ store (create_lead lead w).2 = store w
  /\ posts (create_lead lead w).2 = posts w.
Proof.
  intros Hdown. unfold create_lead, or_500.
  erewrite bind_Raise; [|by apply create_document_down]. done.
Qed.

Lemma or_empty_default (o : option string) : or_empty o = default "" o.
Proof.
  unfold or_empty, truthy. destruct o as [s|]; [|done]. simpl.
  by destruct (String.eqb_spec s "").
Qed.

(** X11: with a non-empty [HUBSPOT_API_KEY] and the lead persisted, exactly
    one outbound call is made, whatever it answers: a POST to the contacts
    endpoint with a 5 second timeout, the key as bearer token, and the
    lead's email, name, phone and project details as properties, a missing
    phone or project details being sent as the empty string. *)
Theorem create_lead_notification (lead : Lead) (w : World) (key : string) :
  storage_up w ->
  getenv "HUBSPOT_API_KEY" w = Some key ->
  key <> "" ->
  exists post properties,
    posts (create_lead lead w).2 = (posts w ++ [post])%list
    /\ post_url post = "https://api.hubapi.com/crm/v3/objects/contacts"
    /\ post_timeout post = 5
    /\ post_headers post !! "Authorization" = Some (VStr ("Bearer " ++ key))
    /\ post_json post !! "properties" = Some (VDict properties)
    /\ properties !! "email" = Some (VStr (Lead_email lead))
    /\ properties !! "firstname" = Some (VStr (Lead_name lead))
    /\ properties !! "phone" = Some (VStr (default "" (Lead_phone lead)))
    /\ properties !! "notes"
       = Some (VStr (default "" (Lead_project_details lead)))
    /\ properties !! "lifecyclestage" = Some (VStr "lead").
Proof.
  intros Hup Hkey Hne. unfold create_lead, or_500.
  erewrite bind_Return; [|by apply create_document_up].
  run. unfold getenv in *. simpl. rewrite Hkey.
  assert (Ht : truthy key = true).
  { unfold truthy. by destruct (String.eqb_spec key ""). }
  rewrite Ht. rewrite !or_empty_default. simpl.
  destruct (crm w); simpl; do 2 eexists;
    (split; [reflexivity|]); simpl; repeat split; by lookups.
Qed.

(** X12: a [HUBSPOT_API_KEY] set to the empty string counts as no
    credential: the lead is answered as received and no call is made. *)
Theorem create_lead_empty_key (lead : Lead) (w : World) :
  storage_up w ->
  getenv "HUBSPOT_API_KEY" w = Some "" ->
  (create_lead lead w).1
    = Ok (VDict {[ "id" := VStr (py_str (VObjectId (next_oid w)));
                   "status" := VStr "received" ]})
  /\ posts (create_lead lead w).2 = posts w.
Proof.
  intros Hup Hkey. unfold create_lead, or_500.
  erewrite bind_Return; [|by apply create_document_up].
  run. unfold getenv in *. simpl. by rewrite Hkey.
Qed.

(** ** Demo seed, continued *)

Lemma appended_refl (w : World) : appended [] w w.
Proof. repeat split. exists []. by rewrite app_nil_r. Qed.

Lemma appended_trans (n1 n2 : list string) (w w1 w2 : World) :
  appended n1 w w1 -> appended n2 w1 w2 -> appended (n1 ++ n2) w w2.
Proof.
  intros (E1 & P1 & F1 & new1 & S1 & N1) (E2 & P2 & F2 & new2 & S2 & N2).
  split; [congruence|]. split; [congruence|]. split; [congruence|].
  exists (new1 ++ new2)%list. split.
  - by rewrite S2, S1, <- app_assoc.
  - by rewrite fmap_app, N1, N2.
Qed.

Lemma inserts_ret {A} (a : A) : inserts (mret a : M A) [].
Proof.
  intros w. split.
  - intros _. exists a, w. split; [done|]. split; [done|]. apply appended_refl.
  - intros k msg Hk. simpl in Hk. lia.
Qed.

Lemma inserts_lift_bind {A B} (a : A) (k : A -> M B) (names : list string) :
  inserts (k a) names -> inserts (x ← lift (Return a); k x) names.
Proof. intros Hk w. exact (Hk w). Qed.

Lemma storage_fails_at_drop (a k : nat) (msg : string) (w w1 : World) :
  storage_fails_at (a + k) msg w ->
  faults w1 = drop a (faults w) ->
  storage_up_for a w /\ storage_fails_at k msg w1.
Proof.
  intros [Hup Hat] Hf. split; [by apply (storage_up_for_take a k)|]. split.
  - by apply (storage_up_for_drop a k w).
  - by rewrite Hf, lookup_drop.
Qed.

Lemma inserts_bind {A B} (m : M A) (k : A -> M B) (n1 n2 : list string) :
  inserts m n1 -> (forall a, inserts (k a) n2) ->
  inserts (x ← m; k x) (n1 ++ n2).
Proof.
  intros Hm Hk w. destruct (Hm w) as [Hm_up Hm_down]. split.
  - rewrite length_app. intros Hup.
    destruct Hm_up as (a & w1 & R1 & F1 & A1);
      [by apply storage_up_for_take in Hup|].
    destruct (Hk a w1) as [Hk_up _].
    destruct Hk_up as (b & w2 & R2 & F2 & A2);
      [by apply (storage_up_for_drop (length n1) (length n2) w w1)|].
    exists b, w2. split; [by erewrite bind_Return|]. split.
    + by rewrite F2, F1, drop_drop.
    + by apply (appended_trans _ _ w w1).
  - intros i msg Hi Hfail. rewrite length_app in Hi.
    destruct (decide (i < length n1)%nat) as [Hlt|Hge].
    + destruct (Hm_down i msg Hlt Hfail) as (w1 & R1 & A1).
      exists w1. split; [by erewrite bind_Raise|].
      rewrite take_app_le by lia. done.
    + replace i with (length n1 + (i - length n1))%nat in Hfail by lia.
      destruct Hm_up as (a & w1 & R1 & F1 & A1);
        [destruct Hfail as [Hup _]; by apply storage_up_for_take in Hup|].
      destruct (storage_fails_at_drop _ _ _ w w1 Hfail F1) as [_ Hfail1].
      destruct (Hk a w1) as [_ Hk_down].
      destruct (Hk_down (i - length n1)%nat msg) as (w2 & R2 & A2);
        [lia|done|].
      exists w2. split; [by erewrite bind_Return|].
      rewrite take_app_ge by lia.
      by apply (appended_trans _ _ w w1).
Qed.

Lemma inserts_create {A} `{BaseModel A} (name : string) (data : A) :
  inserts (create_document name data) [name].
Proof.
  intros w. split.
  - intros Hup. apply storage_up_for_S in Hup.
    rewrite create_document_up by done. do 2 eexists.
    split; [reflexivity|]. split.
    + simpl. by destruct (faults w).
    + repeat split. eexists. split; [reflexivity|done].
  - intros k msg Hk [_ Hat]. simpl in Hk.
    assert (k = 0%nat) as -> by lia.
    rewrite (create_document_down name data w msg)
      by (unfold storage_down; by rewrite head_lookup).
    eexists. split; [reflexivity|]. repeat split.
    exists []. simpl. by rewrite app_nil_r.
Qed.

Lemma inserts_for_each {A} `{BaseModel A} (name : string) (xs : list A) :
  inserts (for_each xs (fun x => create_document name x;; mret tt))
          (replicate (length xs) name).
Proof.
  induction xs as [|x xs IH]; [apply (inserts_ret tt)|].
  apply (inserts_bind _ _ [name]); [|by intros _].
  rewrite <- (app_nil_r [name]).
  apply inserts_bind; [apply inserts_create|intros _; apply inserts_ret].
Qed.

(** The body of [seed_demo] inserts the seven demo documents, in order. *)
Lemma seed_body_inserts :
  inserts
    (products ← lift (construct_all Product_new demo_products);
     for_each products (fun p => create_document "product" p;; mret tt);;
     testimonials ← lift (construct_all Testimonial_new demo_testimonials);
     for_each testimonials (fun t => create_document "testimonial" t;; mret tt);;
     projects ← lift (construct_all Project_new demo_projects);
     for_each projects (fun pr => create_document "project" pr;; mret tt);;
     posts ← lift (construct_all BlogPost_new demo_posts);
     for_each posts (fun b => create_document "blogpost" b;; mret tt);;
     mret (VDict {[ "status" := VStr "seeded" ]}))
    seed_order.
Proof.
  destruct demo_products_valid as (ps & -> & Lps).
  destruct demo_testimonials_valid as (ts & -> & Lts).
  destruct demo_projects_valid as (prs & -> & Lprs).
  destruct demo_posts_valid as (bs & -> & Lbs).
  apply inserts_lift_bind.
  apply (inserts_bind _ _ (replicate 2 "product"));
    [rewrite <- Lps; apply inserts_for_each|intros _].
  apply inserts_lift_bind.
  apply (inserts_bind _ _ (replicate 2 "testimonial"));
    [rewrite <- Lts; apply inserts_for_each|intros _].
  apply inserts_lift_bind.
  apply (inserts_bind _ _ (replicate 2 "project"));
    [rewrite <- Lprs; apply inserts_for_each|intros _].
  apply inserts_lift_bind.
  apply (inserts_bind _ _ (replicate 1 "blogpost") []);
    [rewrite <- Lbs; apply inserts_for_each|intros _].
  apply inserts_ret.
Qed.

(** X13: the seed route answers 403 exactly when the token is not the
    configured secret; in particular a request without token is always
    rejected, and with [SEED_TOKEN] unset the token ["dev"] is let in. *)
Theorem seed_demo_forbidden_iff (token : option string) (w : World) :
  ((seed_demo token w).1 = HTTPException 403 "Forbidden"
   <-> token <> Some (seed_secret w))
  /\ (seed_demo None w).1 = HTTPException 403 "Forbidden"
  /\ (environ w !! "SEED_TOKEN" = None ->
      (seed_demo (Some "dev") w).1 <> HTTPException 403 "Forbidden").
Proof.
  assert (Hiff : forall t,
    (seed_demo t w).1 = HTTPException 403 "Forbidden"
    <-> t <> Some (seed_secret w)).
  { intros t. unfold seed_demo. rewrite getenv_seed_token.
    case_bool_decide as Hd; [done|]. split; [|done].
    unfold or_500.
    match goal with |- context [match ?m w with _ => _ end] =>
      destruct (m w) as [[body|e] w'] end; simpl; discriminate. }
  split; [apply Hiff|]. split; [by apply Hiff|].
  intros Henv H403. apply Hiff in H403. apply H403.
  unfold seed_secret. by rewrite Henv.
Qed.

(** X14: the seed is not rolled back: when the storage raises on its
    insert number [k] (from 0), the route answers 500 with the text of the
    exception, and the [k] documents inserted before stay in the store, after
    the documents that were there. *)
Theorem seed_demo_partial (token : option string) (w : World) (k : nat)
    (msg : string) :
  token = Some (seed_secret w) ->
  (k < 7)%nat ->
  storage_fails_at k msg w ->
  exists w' new,
    seed_demo token w = (HTTPException 500 msg, w')
    /\ store w' = (store w ++ new)%list
    /\ new.*1 = take k seed_order.
Proof.
  intros Htok Hk Hfail. unfold seed_demo. rewrite getenv_seed_token.
  rewrite bool_decide_eq_false_2 by (intros Hne; by apply Hne).
  destruct (seed_body_inserts w) as [_ Hdown].
  destruct (Hdown k msg Hk Hfail) as (w' & R & _ & _ & _ & new & Hs & Hn).
  exists w', new. unfold or_500. by rewrite R.
Qed.

(** X15: a successful seed appends its seven documents after the ones the
    store holds, products first, then testimonials, projects and the blog
    post; it changes no stored document, asks the storage for nothing and
    makes no outbound call. *)
Theorem seed_demo_appends (token : option string) (w : World) :
  token = Some (seed_secret w) ->
  storage_up_for 7 w ->
  exists w' new,
    seed_demo token w = (Ok (VDict {[ "status" := VStr "seeded" ]}), w')
    /\ store w' = (store w ++ new)%list
    /\ new.*1 = seed_order
    /\ finds w' = finds w /\ posts w' = posts w.
Proof.
  intros Htok Hup. unfold seed_demo. rewrite getenv_seed_token.
  rewrite bool_decide_eq_false_2 by (intros Hne; by apply Hne).
  destruct (seed_body_inserts w) as [Hok _].
  destruct (Hok Hup) as (a & w' & R & _ & _ & HP & HF & new & Hs & Hn).
  exists w', new. unfold or_500. rewrite R.
  assert (a = VDict {[ "status" := VStr "seeded" ]}) as ->; [|done].
  destruct (seed_demo_run token w Htok Hup) as (w1 & R1 & _).
  unfold seed_demo in R1. rewrite getenv_seed_token in R1.
  rewrite bool_decide_eq_false_2 in R1 by (intros Hne; by apply Hne).
  unfold or_500 in R1. rewrite R in R1. by injection R1.
Qed.

(** ** Diagnostics, continued *)

Lemma env_flag_truthy (name : string) (w : World) :
  (if truthy (default "" (getenv name w)) then "✅ Set" else "❌ Not Set")
  = env_flag name w.
Proof.
  unfold env_flag, truthy. destruct (getenv name w) as [v|]; simpl; [|done].
  by destruct (String.eqb v "").
Qed.

(** X16: the ["database_url"] and ["database_name"] fields of the
    diagnostics only say whether [DATABASE_URL] and [DATABASE_NAME] are set to
    a non-empty value: what the handler wrote there from the storage handle
    (the name of the database among it) is overwritten in every state. *)
Theorem test_database_env_fields (w : World) :
  exists response : dict,
    test_database w = (Ok (VDict response), w)
    /\ response !! "database_url" = Some (VStr (env_flag "DATABASE_URL" w))
    /\ response !! "database_name" = Some (VStr (env_flag "DATABASE_NAME" w))
    /\ response !! "backend" = Some (VStr "✅ Running").
Proof.
  unfold test_database. rewrite !env_flag_truthy.
  destruct (db w) as [[nm cols]|];
    [destruct nm as [|v|e]; [destruct cols as [l|e] | destruct cols as [l|e] |]|];
    run_local; eexists; (split; [reflexivity|]); repeat split; by lookups.
Qed.


(** ** Schemas: constraints and defaults *)

(** From a constructor that returned, the result of each of its field
    readers. *)
Ltac new_inv H :=
  unfold mbind, result_bind in H;
  repeat match type of H with
         | match ?r with Return _ => _ | Raise _ => _ end = Return _ =>
             let E := fresh "E" in destruct r eqn:E; [|discriminate H]
         end;
  injection H as <-; simpl.

Lemma field_str_Return (kw : dict) (k s : string) :
  field_str kw k = Return s -> kw !! k = Some (VStr s).
Proof.
  unfold field_str. destruct (kw !! k) as [[]|]; try discriminate.
  by intros [= <-].
Qed.

Lemma field_bool_Return (kw : dict) (k : string) (dflt b : bool) :
  field_bool kw k dflt = Return b ->
  (kw !! k = None /\ b = dflt) \/ kw !! k = Some (VBool b).
Proof.
  unfold field_bool. destruct (kw !! k) as [[]|]; try discriminate;
    intros [= <-]; auto.
Qed.










(** X21: a [BlogPost] that has been constructed was given a title, a slug
    and a content, and is published unless told otherwise. *)
Theorem BlogPost_constraints (kw : dict) (b : BlogPost) :
  BlogPost_new kw = Return b ->
  kw !! "title" = Some (VStr (BlogPost_title b))
  /\ kw !! "slug" = Some (VStr (BlogPost_slug b))
  /\ kw !! "content" = Some (VStr (BlogPost_content b))
  /\ (kw !! "published" = None -> BlogPost_published b = true).
Proof.
  intros Hb. unfold BlogPost_new in Hb. new_inv Hb.
  apply field_str_Return in E, E0, E2. apply field_bool_Return in E5.
  repeat split; try done.
  intros Hnone. destruct E5 as [[_ ->]|Hp]; [done|congruence].
Qed.





End Service.

(** * Examples on the concrete runtime *)

Example serialize_docs_example :
  _serialize_docs str_value
    [ {[ "_id" := VObjectId 7; "title" := VStr "Chair" ]};
      {[ "title" := VStr "Lamp" ]} ]
  = [ {[ "id" := VStr "7"; "title" := VStr "Chair" ]};
      {[ "title" := VStr "Lamp" ]} ].
Proof. vm_compute. reflexivity. Qed.

(** A stored ["id"] field is overwritten by the identifier. *)
Example serialize_doc_overwrites_id :
  serialize_doc str_value {[ "_id" := VObjectId 7; "id" := VStr "legacy" ]}
  = {[ "id" := VStr "7" ]}.
Proof. vm_compute. reflexivity. Qed.

Example list_testimonials_example :
  (list_testimonials str_value 4 world_rated).1
  = Ok (VList [ VDict {[ "id" := VStr "2"; "rating" := VInt 5 ]};
                VDict {[ "id" := VStr "3"; "rating" := VInt 4 ]} ]).
Proof. vm_compute. reflexivity. Qed.

(** With the credential set, the call is made once, and its failure is
    swallowed. *)
Example create_lead_notifies :
  let r := create_lead str_value lead0 world_crm in
  r.1 = Ok (VDict {[ "id" := VStr "1"; "status" := VStr "received" ]})
  /\ post_url <$> posts r.2
     = ["https://api.hubapi.com/crm/v3/objects/contacts"].
Proof. vm_compute. split; reflexivity. Qed.

(** C2: with [category] supplied as the empty string, the filter handed to
    the storage is empty: it has no ["category"] key. *)
Lemma list_products_empty_category :
  finds (list_products str_value (Some "") None None world0).2
  = [("product", ∅)].
Proof. vm_compute. reflexivity. Qed.

(** C6: with [keyword] supplied as the empty string, the filter handed to
    the storage has the ["published"] key only. *)
Lemma list_blogposts_empty_keyword :
  finds (get_blogposts str_value None (Some "") world0).2
  = [("blogpost", {[ "published" := VBool true ]})].
Proof. vm_compute. reflexivity. Qed.

(** C9: a [Product] built with [tags=None] is accepted and its [tags] is
    null. *)
Lemma Product_tags_null :
  exists p,
    Product_new http_scheme
      {[ "title" := VStr "Chair"; "price" := VFloat 10;
         "category" := VStr "furniture"; "tags" := VNone ]} = Return p
    /\ Product_tags p = None.
Proof. eexists. split; reflexivity. Qed.

(** C3 at [lead0]: with the credential set the answer is the same for
    every outcome of the CRM call, and without it no call is made. *)
Lemma create_lead_received_witness :
  (forall c : crm_outcome,
     (create_lead str_value lead0 (with_crm c world_crm)).1
       = Ok (VDict {[ "id" := VStr "1"; "status" := VStr "received" ]}))
  /\ posts (create_lead str_value lead0 world0).2 = [].
Proof.
  split.
  - intros c.
    apply (create_lead_received str_value lead0 world_crm
             (create_document str_value "lead" lead0 world_crm).2 "1").
    vm_compute. reflexivity.
  - apply (create_lead_received str_value lead0 world0
             (create_document str_value "lead" lead0 world0).2 "1").
    + vm_compute. reflexivity.
    + reflexivity.
Defined.

(** C4 at the token ["wrong"], the secret being the default ["dev"]. *)
Lemma seed_demo_forbidden_witness :
  seed_demo str_value http_scheme (Some "wrong") world0
    = (HTTPException 403 "Forbidden", world0)
  /\ store (seed_demo str_value http_scheme (Some "wrong") world0).2
     = store world0.
Proof.
  apply (seed_demo_forbidden str_value http_scheme (Some "wrong") world0).
  vm_compute. discriminate.
Defined.

(** C7 at the default token on the empty store: 7 documents after one
    call, 14 after two. *)
Lemma seed_demo_counts_witness :
  exists w1 w2,
    seed_demo str_value http_scheme (Some "dev") world0
      = (Ok (VDict {[ "status" := VStr "seeded" ]}), w1)
    /\ seed_demo str_value http_scheme (Some "dev") w1
       = (Ok (VDict {[ "status" := VStr "seeded" ]}), w2)
    /\ (count "product" w1, count "testimonial" w1, count "project" w1,
        count "blogpost" w1, length (store w1)) = (2, 2, 2, 1, 7)%nat
    /\ (count "product" w2, count "testimonial" w2, count "project" w2,
        count "blogpost" w2, length (store w2)) = (4, 4, 4, 2, 14)%nat.
Proof.
  destruct (seed_demo_counts str_value http_scheme (Some "dev") world0)
    as (w1 & R1 & F1 & (P1 & T1 & J1 & B1 & L1) & Hnext).
  - reflexivity.
  - vm_compute. constructor.
  - destruct Hnext as (w2 & R2 & P2 & T2 & J2 & B2 & L2).
    + unfold storage_up_for. rewrite F1. vm_compute. constructor.
    + exists w1, w2. split; [exact R1|]. split; [exact R2|].
      rewrite P1, T1, J1, B1, L1, P2, T2, J2, B2, L2. split; reflexivity.
Defined.

(** C1 at a list of two documents, the first with an ["_id"]. *)
Lemma serialize_docs_spec_witness :
  exists d',
    _serialize_docs str_value
      [ {[ "_id" := VObjectId 7; "title" := VStr "Chair" ]};
        {[ "title" := VStr "Lamp" ]} ] !! 0%nat = Some d'
    /\ d' !! "id" = Some (VStr "7")
    /\ d' !! "_id" = None
    /\ d' !! "title" = Some (VStr "Chair").
Proof.
  destruct (serialize_docs_spec str_value
              [ {[ "_id" := VObjectId 7; "title" := VStr "Chair" ]};
                {[ "title" := VStr "Lamp" ]} ]) as [_ Hdocs].
  destruct (Hdocs 0%nat {[ "_id" := VObjectId 7; "title" := VStr "Chair" ]}
              eq_refl) as (d' & Hd' & Hid & _ & Hother).
  destruct (Hid (VObjectId 7) eq_refl) as [Hid1 Hid2].
  exists d'. split; [exact Hd'|]. split; [exact Hid1|]. split; [exact Hid2|].
  rewrite Hother; [reflexivity|discriminate|discriminate].
Defined.

(** C5 on three testimonials rated 3, 5 and 4: [min_rating=4] reaches the
    handler, which answers ratings of at least 4 only, and [min_rating=9] is
    rejected with nothing asked of the storage. *)
Lemma list_testimonials_min_rating_witness :
  get_testimonials str_value (Some 4) world_rated
    = list_testimonials str_value 4 world_rated
  /\ (exists docs,
        (list_testimonials str_value 4 world_rated).1 = Ok (json_docs docs)
        /\ Forall (fun d => exists n, d !! "rating" = Some (VInt n) /\ 4 <= n)
                  docs)
  /\ exists detail,
       get_testimonials str_value (Some 9) world_rated
       = (HTTPException 422 detail, world_rated).
Proof.
  destruct (list_testimonials_min_rating str_value 4 world_rated)
    as ((_ & Hdocs) & _ & Hin & _).
  destruct (list_testimonials_min_rating str_value 9 world_rated)
    as (_ & _ & _ & Hout).
  split; [apply Hin; lia|]. split; [|apply Hout; lia].
  rewrite list_testimonials_example in Hdocs |- *.
  destruct Hdocs as (docs & Hbody & Hall).
  exists docs. split; [by rewrite Hbody|exact Hall].
Defined.

(** C9 at a [Product] built without [tags]: the field is the empty list. *)
Lemma list_fields_default_witness :
  exists p,
    Product_new http_scheme
      {[ "title" := VStr "Chair"; "price" := VFloat 10;
         "category" := VStr "furniture" ]} = Return p
    /\ Product_tags p = Some [].
Proof.
  destruct (Product_new http_scheme
              {[ "title" := VStr "Chair"; "price" := VFloat 10;
                 "category" := VStr "furniture" ]}) as [p|e] eqn:E;
    [|vm_compute in E; discriminate].
  exists p. split; [reflexivity|].
  destruct (list_fields_default http_scheme
              {[ "title" := VStr "Chair"; "price" := VFloat 10;
                 "category" := VStr "furniture" ]}) as [HP _].
  destruct (HP p E) as [Hdefault _]. apply Hdefault. reflexivity.
Defined.


(** X4 on a storage that refuses the connection. *)
Lemma read_routes_storage_error_witness :
  (list_products str_value (Some "lighting") None (Some true) world_down).1
    = HTTPException 500 "connection refused"
  /\ (list_projects str_value None (Some "Bedroom") world_down).1
     = HTTPException 500 "connection refused"
  /\ (list_testimonials str_value 4 world_down).1
     = HTTPException 500 "connection refused"
  /\ (list_blogposts str_value true None world_down).1
     = HTTPException 500 "connection refused".
Proof.
  apply (read_routes_storage_error str_value "connection refused" world_down
           (Some "lighting") None None (Some "Bedroom") None (Some true) 4
           true).
  reflexivity.
Defined.

(** X6 on a store of two products and a project. *)
Lemma list_all_without_parameters_witness :
  (list_products str_value None None None world_catalog).1
    = Ok (VList [ VDict {[ "id" := VStr "1"; "title" := VStr "Chair" ]};
                  VDict {[ "id" := VStr "3"; "title" := VStr "Lamp" ]} ])
  /\ (list_projects str_value None None world_catalog).1
     = Ok (VList [ VDict {[ "id" := VStr "2"; "title" := VStr "Loft" ]} ]).
Proof.
  destruct (list_all_without_parameters str_value world_catalog) as [Hp Hj].
  - intros msg. vm_compute. discriminate.
  - rewrite Hp, Hj. vm_compute. split; reflexivity.
Defined.

(** X9 for the bounds 3 and 5 on three testimonials. *)
Lemma list_testimonials_monotone_witness :
  exists docs1 docs2,
    (list_testimonials str_value 3 world_rated).1 = Ok (json_docs docs1)
    /\ (list_testimonials str_value 5 world_rated).1 = Ok (json_docs docs2)
    /\ sublist docs2 docs1.
Proof.
  apply (list_testimonials_monotone str_value 3 5 world_rated).
  - lia.
  - intros msg. vm_compute. discriminate.
Defined.

(** X10 on a storage that refuses the connection, the credential set. *)
Lemma create_lead_storage_error_witness :
  (create_lead str_value lead0 world_down).1
    = HTTPException 500 "connection refused"
  /\ store (create_lead str_value lead0 world_down).2 = store world_down
  /\ posts (create_lead str_value lead0 world_down).2 = posts world_down.
Proof.
  apply (create_lead_storage_error str_value lead0 world_down
           "connection refused").
  reflexivity.
Defined.

(** X11 at [lead0], which has no phone. *)
Lemma create_lead_notification_witness :
  exists post properties,
    posts (create_lead str_value lead0 world_crm).2
      = (posts world_crm ++ [post])%list
    /\ post_url post = "https://api.hubapi.com/crm/v3/objects/contacts"
    /\ post_timeout post = 5
    /\ post_headers post !! "Authorization"
       = Some (VStr ("Bearer " ++ "secret-key"))
    /\ post_json post !! "properties" = Some (VDict properties)
    /\ properties !! "email" = Some (VStr (Lead_email lead0))
    /\ properties !! "firstname" = Some (VStr (Lead_name lead0))
    /\ properties !! "phone" = Some (VStr (default "" (Lead_phone lead0)))
    /\ properties !! "notes"
       = Some (VStr (default "" (Lead_project_details lead0)))
    /\ properties !! "lifecyclestage" = Some (VStr "lead").
Proof.
  apply (create_lead_notification str_value lead0 world_crm "secret-key").
  - intros msg. vm_compute. discriminate.
  - reflexivity.
  - discriminate.
Defined.

(** X12 with the credential set to the empty string. *)
Lemma create_lead_empty_key_witness :
  (create_lead str_value lead0 world_empty_key).1
    = Ok (VDict {[ "id" := VStr (str_value (VObjectId (next_oid world_empty_key)));
                   "status" := VStr "received" ]})
  /\ posts (create_lead str_value lead0 world_empty_key).2
     = posts world_empty_key.
Proof.
  apply (create_lead_empty_key str_value lead0 world_empty_key).
  - intros msg. vm_compute. discriminate.
  - reflexivity.
Defined.

(** X14 on a storage that raises on its fourth call: 500, and the two
    products and the first testimonial stay. *)
Lemma seed_demo_partial_witness :
  exists w' new,
    seed_demo str_value http_scheme (Some "dev") world_flaky
      = (HTTPException 500 "disk full", w')
    /\ store w' = (store world_flaky ++ new)%list
    /\ new.*1 = ["product"; "product"; "testimonial"].
Proof.
  apply (seed_demo_partial str_value http_scheme (Some "dev") world_flaky 3
           "disk full").
  - reflexivity.
  - lia.
  - split; [|reflexivity]. vm_compute. repeat constructor.
Defined.

(** X15 at the default token on the empty store. *)
Lemma seed_demo_appends_witness :
  exists w' new,
    seed_demo str_value http_scheme (Some "dev") world0
      = (Ok (VDict {[ "status" := VStr "seeded" ]}), w')
    /\ store w' = (store world0 ++ new)%list
    /\ new.*1 = seed_order
    /\ finds w' = finds world0 /\ posts w' = posts world0.
Proof.
  apply (seed_demo_appends str_value http_scheme (Some "dev") world0).
  - reflexivity.
  - vm_compute. constructor.
Defined.

(** X21 at a post given by title, slug and content only. *)
Lemma BlogPost_constraints_witness :
  exists b,
    BlogPost_new http_scheme
      {[ "title" := VStr "Trends"; "slug" := VStr "trends";
         "content" := VStr "Long-form content" ]} = Return b
    /\ BlogPost_title b = "Trends"
    /\ BlogPost_published b = true.
Proof.
  destruct (BlogPost_new http_scheme
              {[ "title" := VStr "Trends"; "slug" := VStr "trends";
                 "content" := VStr "Long-form content" ]}) as [b|e] eqn:E;
    [|vm_compute in E; discriminate].
  destruct (BlogPost_constraints http_scheme _ b E) as (Ht & _ & _ & Hp).
  exists b. split; [reflexivity|]. split.
  - vm_compute in Ht. injection Ht as Ht. symmetry. exact Ht.
  - apply Hp. reflexivity.
Defined.


